(** * Themis-Roussos: the timeline ingestion and deduplication engine

    A shallow embedding of [timeline_ultra.py] (the engine the application
    instantiates), [memory/timeline_memory.py] (its local JSON store),
    [core/timeline_engine.py] with [core/reform_detector.py] (the earlier
    engine) and the free-text extractor of [timeline_header.py].

    Python values are modelled as follows.
    - [str]: a sequence of Unicode code points, so that slicing counts
      characters as Python does.
    - [float]: IEEE 754 binary64, Rocq's primitive floats.
    - [datetime]: a naive datetime, ordered field by field.
    - [set]: stdpp's [gset]; [dict]: an insertion-ordered association list.
    - an uncaught exception: [None] in an [option] result. *)

From Stdlib Require Import ZArith NArith List Bool Lia Ascii String.
From Stdlib Require Import Sorting.Sorted Sorting.Permutation.
From Stdlib Require Import Floats.PrimFloat.
From stdpp Require Import base decidable countable gmap sets list.

Set Warnings "-inexact-float,-clear-no-such-hyp".
Local Open Scope Z_scope.

(** ** Python runtime values *)

Module Py.

(** A character is a Unicode code point; a [str] is a sequence of them. *)
Definition char := N.
Definition str := list char.

(** Decoding of the UTF-8 bytes of a literal of this file into code points
    (one to three bytes per character, enough for the literals used). *)
Fixpoint utf8_decode (bs : list N) : str :=
  match bs with
  | [] => []
  | b :: rest =>
      if (b <? 128)%N then b :: utf8_decode rest
      else if (b <? 224)%N then
        match rest with
        | c :: rest' => ((b - 192) * 64 + (c - 128))%N :: utf8_decode rest'
        | [] => [b]
        end
      else
        match rest with
        | c :: d :: rest' =>
            ((b - 224) * 4096 + (c - 128) * 64 + (d - 128))%N :: utf8_decode rest'
        | _ => [b]
        end
  end.

Definition u (s : string) : str :=
  utf8_decode (List.map N_of_ascii (list_ascii_of_string s)).

(** [needle in hay] on strings: substring test. *)
Fixpoint startswith (p s : str) : bool :=
  match p, s with
  | [], _ => true
  | _ :: _, [] => false
  | a :: p', b :: s' => (a =? b)%N && startswith p' s'
  end.

Fixpoint contains (needle hay : str) : bool :=
  startswith needle hay ||
  match hay with
  | [] => false
  | _ :: hay' => contains needle hay'
  end.

(** [str.isspace] on one character: the Unicode white space code points. *)
Definition isspace (c : char) : bool :=
  ((9 <=? c) && (c <=? 13) || (28 <=? c) && (c <=? 32) || (c =? 133) ||
   (c =? 160) || (c =? 5760) || (8192 <=? c) && (c <=? 8202) ||
   (c =? 8232) || (c =? 8233) || (c =? 8239) || (c =? 8287) || (c =? 12288))%N.

Fixpoint lstrip (s : str) : str :=
  match s with
  | c :: s' => if isspace c then lstrip s' else s
  | [] => []
  end.

Definition rstrip (s : str) : str := rev (lstrip (rev s)).

(** [s.strip()] *)
Definition strip (s : str) : str := rstrip (lstrip s).

(** [s[:n]] *)
Definition slice_to (n : nat) (s : str) : str := firstn n s.

(** [min(a, b)] on floats: the builtin keeps its first argument unless the
    second is strictly smaller. *)
Definition min (a b : float) : float :=
  if PrimFloat.ltb b a then b else a.

(** [any(p(x) for x in xs)] *)
Definition any {A} (p : A -> bool) (xs : list A) : bool := existsb p xs.

(** *** [datetime.date] and naive [datetime.datetime] *)

Record date := Date { d_year : Z; d_month : Z; d_day : Z }.

Record datetime := Datetime {
  year : Z; month : Z; day : Z;
  hour : Z; minute : Z; second : Z; microsecond : Z }.

#[global] Instance date_eq_dec : EqDecision date.
Proof. solve_decision. Defined.

#[global] Instance date_countable : Countable date.
Proof.
  refine (inj_countable' (fun d => (d_year d, d_month d, d_day d))
                         (fun t => Date t.1.1 t.1.2 t.2) _).
  by intros [].
Defined.

#[global] Instance datetime_eq_dec : EqDecision datetime.
Proof. solve_decision. Defined.

(** [dt.date()] *)
Definition date_of (dt : datetime) : date :=
  Date (year dt) (month dt) (day dt).

(** Naive datetimes compare as the tuples of their fields. *)
Definition fields (dt : datetime) : list Z :=
  [year dt; month dt; day dt; hour dt; minute dt; second dt; microsecond dt].

Fixpoint lex_lt (a b : list Z) : bool :=
  match a, b with
  | _, [] => false
  | [], _ :: _ => true
  | x :: a', y :: b' => (x <? y) || ((x =? y) && lex_lt a' b')
  end.

(** [a < b], [a <= b] and [a >= b] on datetimes *)
Definition dt_lt (a b : datetime) : bool := lex_lt (fields a) (fields b).
Definition dt_le (a b : datetime) : bool := negb (dt_lt b a).
Definition dt_ge (a b : datetime) : bool := negb (dt_lt a b).

(** Decimal rendering, as the [%0Nd] formats of [isoformat] do. *)
Fixpoint uint_chars (d : Decimal.uint) : str :=
  match d with
  | Decimal.Nil => []
  | Decimal.D0 d => 48%N :: uint_chars d
  | Decimal.D1 d => 49%N :: uint_chars d
  | Decimal.D2 d => 50%N :: uint_chars d
  | Decimal.D3 d => 51%N :: uint_chars d
  | Decimal.D4 d => 52%N :: uint_chars d
  | Decimal.D5 d => 53%N :: uint_chars d
  | Decimal.D6 d => 54%N :: uint_chars d
  | Decimal.D7 d => 55%N :: uint_chars d
  | Decimal.D8 d => 56%N :: uint_chars d
  | Decimal.D9 d => 57%N :: uint_chars d
  end.

Definition zero_pad (width : nat) (z : Z) : str :=
  let ds := uint_chars (N.to_uint (Z.to_N z)) in
  repeat 48%N (width - length ds) ++ ds.

(** [dt.isoformat()] of a naive datetime *)
Definition isoformat (dt : datetime) : str :=
  zero_pad 4 (year dt) ++ u "-" ++ zero_pad 2 (month dt) ++ u "-" ++
  zero_pad 2 (day dt) ++ u "T" ++ zero_pad 2 (hour dt) ++ u ":" ++
  zero_pad 2 (minute dt) ++ u ":" ++ zero_pad 2 (second dt) ++
  (if microsecond dt =? 0 then [] else u "." ++ zero_pad 6 (microsecond dt)).

(** [datetime(y, m, d)]: [None] stands for the [ValueError] of a date
    that does not exist. *)
Definition is_leap (y : Z) : bool :=
  (y mod 4 =? 0) && (negb (y mod 100 =? 0) || (y mod 400 =? 0)).

Definition days_in_month (y m : Z) : Z :=
  if m =? 2 then (if is_leap y then 29 else 28)
  else if (m =? 4) || (m =? 6) || (m =? 9) || (m =? 11) then 30
  else 31.

Definition make_datetime (y m d : Z) : option datetime :=
  if (1 <=? y) && (y <=? 9999) && (1 <=? m) && (m <=? 12) &&
     (1 <=? d) && (d <=? days_in_month y m)
  then Some (Datetime y m d 0 0 0 0)
  else None.

(** Decimal digits, and [int(s)] on a string of digits. *)
Definition isdigit (c : char) : bool := ((48 <=? c) && (c <=? 57))%N.

Definition int_of_digits (s : str) : Z :=
  fold_left (fun acc c => 10 * acc + (Z.of_N c - 48)) s 0.

(** *** [list.sort(key=...)] and [sorted(..., key=...)]

    Python's sort is stable, and a stable sort has one result: the
    insertion sort below computes it. *)
Section Sort.
Context {A : Type} (lt : A -> A -> bool).

Fixpoint insert_sorted (x : A) (l : list A) : list A :=
  match l with
  | [] => [x]
  | y :: l' => if lt y x then y :: insert_sorted x l' else x :: l
  end.

Definition stable_sort (l : list A) : list A := foldr insert_sorted [] l.
End Sort.

End Py.

Import Py.

(** ** The significance scorer of [timeline_ultra.py] *)

Module Scorer.

Section WithLower.

(** [str.lower] of the Python runtime. *)
Variable lower : str -> str.

(** [TimelineUltra._score_event] *)
Definition _score_event (title event_type : str) : float :=
  let score := 0%float in
  let title_lower := lower title in
  let score :=
    if bool_decide (event_type = u "loi") then (score + 0.4)%float
    else if bool_decide (event_type = u "decret") then (score + 0.2)%float
    else score in
  let score :=
    if any (fun word => contains word title_lower) [u "réforme"; u "codification"]
    then (score + 0.3)%float else score in
  let score :=
    if any (fun word => contains word title_lower) [u "travail"; u "social"; u "emploi"]
    then (score + 0.2)%float else score in
  Py.min score 1.0%float.

(** The scorer as section 4.2 of the specification words it: the sum of
    the four weighted terms, capped at 1.0. *)
Definition term (b : bool) (w : float) : float := if b then w else 0%float.

Definition spec_score (title event_type : str) : float :=
  let t := lower title in
  let s :=
    (term (bool_decide (event_type = u "loi")) 0.4 +
     term (bool_decide (event_type = u "decret")) 0.2 +
     term (contains (u "réforme") t || contains (u "codification") t) 0.3 +
     term (contains (u "travail") t || contains (u "social") t
           || contains (u "emploi") t) 0.2)%float in
  Py.min s 1.0%float.

End WithLower.

End Scorer.

(** ** [LegalEvent], the dataclass of [timeline_ultra.py]

    [date] is [None] when a descriptor without a ["date"] key was
    converted: the engine stores Python's [None] there. *)

Record LegalEvent := mkLegalEvent {
  date : option datetime;
  title : str;
  source : str;
  event_type : str;
  description : str;
  score : float }.

(** ** The local JSON store, [memory/timeline_memory.py] *)

Module TimelineMemory.

(** One stored entry as [json.load] returns it: any key may be absent. *)
Record payload := Payload {
  p_date : option str;
  p_title : option str;
  p_source : option str;
  p_event_type : option str;
  p_description : option str;
  p_score : option float;
  p_timestamp : option str }.

(** [events_db]: a Python dict, which keeps insertion order. *)
Definition dict := list (str * payload).

(** [k in d] *)
Definition dict_mem (k : str) (d : dict) : bool :=
  existsb (fun kv => bool_decide (kv.1 = k)) d.

(** [d[k] = v] *)
Fixpoint dict_set (k : str) (v : payload) (d : dict) : dict :=
  match d with
  | [] => [(k, v)]
  | (k', v') :: d' =>
      if bool_decide (k' = k) then (k', v) :: d' else (k', v') :: dict_set k v d'
  end.

(** The backing file: missing, not valid JSON, or a JSON mapping. *)
Inductive file := Absent | Unreadable | Json (data : dict).

(** The store object together with the content of its [storage_file].
    [clock] counts the readings of [datetime.utcnow] made so far. *)
Record t := mk {
  storage_file : str;
  events_db : dict;
  file_content : file;
  clock : nat;
  collection_id : str;
  collection_name : str }.

Section WithRuntime.

(** [hashlib.sha256(key.encode()).hexdigest()] and the successive
    readings of [datetime.utcnow()]. *)
Variable sha256_hexdigest : str -> str.
Variable utcnow : nat -> datetime.

(** [_load_from_file] *)
Definition _load_from_file (f : file) : dict :=
  match f with
  | Absent => []
  | Unreadable => []
  | Json data => data
  end.

(** Truth value of an optional string argument. *)
Definition truthy (s : option str) : bool :=
  match s with
  | Some (_ :: _) => true
  | _ => false
  end.

(** [TimelineMemory.__init__], given the content of the chosen file. *)
Definition __init__ (conversation_id storage_file : option str) (f : file) : t :=
  let path :=
    if truthy storage_file then default [] storage_file
    else if truthy conversation_id then
      u "data/conversations/" ++ default [] conversation_id ++ u "/timeline_events.json"
    else u "data/timeline_events.json" in
  {| storage_file := path;
     events_db := _load_from_file f;
     file_content := f;
     clock := 0%nat;
     collection_id := if truthy conversation_id then default [] conversation_id
                      else u "global";
     collection_name := if truthy conversation_id
                        then u "timeline_" ++ default [] conversation_id
                        else u "timeline_global" |}.

(** [_save_to_file]: the whole mapping is rewritten. A failed write is
    logged and swallowed by the source; the model follows the write. *)
Definition _save_to_file (self : t) : t :=
  {| storage_file := storage_file self;
     events_db := events_db self;
     file_content := Json (events_db self);
     clock := clock self;
     collection_id := collection_id self;
     collection_name := collection_name self |}.

(** [event.date.isoformat() if isinstance(event.date, datetime) else str(event.date)] *)
Definition date_str (event : LegalEvent) : str :=
  match date event with
  | Some d => isoformat d
  | None => u "None"
  end.

(** [_hash_event] *)
Definition _hash_event (event : LegalEvent) : str :=
  let key := date_str event ++ u "-" ++ title event in
  sha256_hexdigest key.

(** [_event_to_dict], reading the clock at [now]. *)
Definition _event_to_dict (now : datetime) (event : LegalEvent) : payload :=
  {| p_date := Some (date_str event);
     p_title := Some (title event);
     p_source := Some (source event);
     p_event_type := Some (event_type event);
     p_description := Some (description event);
     p_score := Some (score event);
     p_timestamp := Some (isoformat now) |}.

(** [upsert_event] *)
Definition upsert_event (self : t) (event : LegalEvent) : t :=
  let event_id := _hash_event event in
  if dict_mem event_id (events_db self) then self
  else
    _save_to_file
      {| storage_file := storage_file self;
         events_db := dict_set event_id (_event_to_dict (utcnow (clock self)) event)
                               (events_db self);
         file_content := file_content self;
         clock := S (clock self);
         collection_id := collection_id self;
         collection_name := collection_name self |}.

(** [load_all_events]: the payloads in the order of the mapping. *)
Definition load_all_events (self : t) : list payload :=
  List.map snd (events_db self).

(** [similar_exists] *)
Definition similar_exists (self : t) (event : LegalEvent) : bool :=
  dict_mem (_hash_event event) (events_db self).

(** [clear_all] *)
Definition clear_all (self : t) : t * bool :=
  (_save_to_file
     {| storage_file := storage_file self;
        events_db := [];
        file_content := file_content self;
        clock := clock self;
        collection_id := collection_id self;
        collection_name := collection_name self |}, true).

End WithRuntime.

End TimelineMemory.

(** ** The engine, [timeline_ultra.py] *)

Module TimelineUltra.

(** The value under the ["date"] key of a descriptor: an ISO string, or a
    datetime already converted by [extract_events_silently]. *)
Inductive date_field :=
| DateStr (s : str)
| DateObj (d : datetime).

(** A candidate handed to [ingest_llm_events]: an object with [date] and
    [title] attributes (a [TimelineEvent]), a dict whose keys may be
    absent and hold strings when present, or anything else. *)
Inductive candidate :=
| Obj (date : datetime) (title : str) (event_type description : option str)
| Dict (date : option date_field) (title event_type description : option str)
| Other.

(** The dedup key: [(date-without-time, normalised title)]. *)
Definition fingerprint : Type := option Py.date * str.

(** The engine object. *)
Record t := mk {
  events : list LegalEvent;
  _fingerprints : gset fingerprint;
  enable_memory : bool;
  conversation_id : option str;
  memory : option TimelineMemory.t }.

(** Keys of [list.sort(key=lambda e: e.date)]: comparing with [None]
    raises [TypeError]. *)
Definition has_date (e : LegalEvent) : bool :=
  match date e with Some _ => true | None => false end.

Definition event_lt (a b : LegalEvent) : bool :=
  match date a, date b with
  | Some x, Some y => dt_lt x y
  | _, _ => false
  end.

(** Sorting by date. With fewer than two events nothing is compared;
    otherwise every key takes part in a comparison, so one [None] date
    raises [TypeError] (the [None] result). *)
Definition sort_by_date (l : list LegalEvent) : option (list LegalEvent) :=
  match l with
  | [] | [_] => Some l
  | _ => if forallb has_date l then Some (stable_sort event_lt l) else None
  end.

(** [[e for e in events if p(e.date)]] with a comparison [p] against a
    datetime: an event without date raises [TypeError]. *)
Fixpoint filter_by_date (p : datetime -> bool) (l : list LegalEvent)
  : option (list LegalEvent) :=
  match l with
  | [] => Some []
  | e :: l' =>
      match date e with
      | None => None
      | Some d =>
          rest ← filter_by_date p l';
          Some (if p d then e :: rest else rest)
      end
  end.

(** [a.date <= b.date], both dates being datetimes. *)
Definition date_le (a b : LegalEvent) : Prop :=
  match date a, date b with
  | Some x, Some y => dt_le x y = true
  | _, _ => False
  end.

(** Every event carries a datetime. *)
Definition all_dated (l : list LegalEvent) : Prop :=
  Forall (fun e => has_date e = true) l.

(** A candidate that is not a dict without ["date"] key. *)
Definition with_date (c : candidate) : bool :=
  match c with
  | Dict None _ _ _ => false
  | _ => true
  end.

(** The title a candidate brings: [event.title], or
    [event.get("title", "")]. *)
Definition title_of (c : candidate) : str :=
  match c with
  | Obj _ title _ _ => title
  | Dict _ title _ _ => default [] title
  | Other => []
  end.

(** The window of a range query as the specification words it:
    [start <= d <= end], an omitted bound being no bound. *)
Definition within (start_date end_date : option datetime) (d : datetime) : bool :=
  match start_date with Some s => dt_le s d | None => true end &&
  match end_date with Some e => dt_le d e | None => true end.

Definition in_window (start_date end_date : option datetime) (e : LegalEvent) : bool :=
  match date e with
  | Some d => within start_date end_date d
  | None => false
  end.

Section WithRuntime.

(** [str.lower], [datetime.fromisoformat] ([None] when it raises
    [ValueError]; the date strings carry no UTC offset, so that the
    datetimes are naive), and the runtime of the store. *)
Variable lower : str -> str.
Variable fromisoformat : str -> option datetime.
Variable sha256_hexdigest : str -> str.
Variable utcnow : nat -> datetime.

(** [_fingerprint] *)
Definition _fingerprint (event : LegalEvent) : fingerprint :=
  let date_key := date_of <$> date event in
  (date_key, slice_to 100 (strip (lower (title event)))).

Definition _score_event := Scorer._score_event lower.

(** The engine with new values of its three mutable attributes. *)
Definition with_events (self : t) (evs : list LegalEvent)
    (fps : gset fingerprint) (m : option TimelineMemory.t) : t :=
  {| events := evs;
     _fingerprints := fps;
     enable_memory := enable_memory self;
     conversation_id := conversation_id self;
     memory := m |}.

(** One iteration of the loop of [_load_from_memory]. *)
Definition load_one (self : t) (payload : TimelineMemory.payload) : t :=
  match TimelineMemory.p_date payload with
  | None => self
  | Some [] => self
  | Some date_str =>
      match fromisoformat date_str with
      | None => self
      | Some d =>
          let event :=
            {| date := Some d;
               title := default [] (TimelineMemory.p_title payload);
               source := default (u "unknown") (TimelineMemory.p_source payload);
               event_type :=
                 default (u "modification") (TimelineMemory.p_event_type payload);
               description := default [] (TimelineMemory.p_description payload);
               score := 0%float |} in
          let fp := _fingerprint event in
          if bool_decide (fp ∈ _fingerprints self) then self
          else with_events self (events self ++ [event])
                           ({[fp]} ∪ _fingerprints self) (memory self)
      end
  end.

(** [_load_from_memory] *)
Definition _load_from_memory (self : t) : t :=
  match memory self with
  | None => self
  | Some m => foldl load_one self (TimelineMemory.load_all_events m)
  end.

(** [TimelineUltra.__init__], given the content of the store's file. *)
Definition __init__ (enable_memory : bool) (conversation_id : option str)
    (f : TimelineMemory.file) : t :=
  if enable_memory then
    _load_from_memory
      {| events := [];
         _fingerprints := ∅;
         enable_memory := true;
         conversation_id := conversation_id;
         memory := Some (TimelineMemory.__init__ conversation_id None f) |}
  else
    {| events := [];
       _fingerprints := ∅;
       enable_memory := false;
       conversation_id := conversation_id;
       memory := None |}.

(** The conversion at the head of the loop of [ingest_llm_events];
    [None] is the [continue] of a skipped candidate. *)
Definition convert (event : candidate) : option LegalEvent :=
  match event with
  | Obj d title event_type description =>
      Some {| date := Some d;
              title := title;
              source := u "llm";
              event_type := default (u "modification") event_type;
              description := default [] description;
              score := _score_event title (default [] event_type) |}
  | Dict date_str title event_type description =>
      let parsed :=
        match date_str with
        | Some (DateStr s) =>
            match fromisoformat s with
            | Some d => Some (Some d)
            | None => None
            end
        | Some (DateObj d) => Some (Some d)
        | None => Some None
        end in
      match parsed with
      | None => None
      | Some d =>
          Some {| date := d;
                  title := default [] title;
                  source := u "llm";
                  event_type := default (u "modification") event_type;
                  description := default [] description;
                  score := _score_event (default [] title) (default [] event_type) |}
      end
  | Other => None
  end.

(** A descriptor whose date is a datetime or a string that
    [fromisoformat] parses; a descriptor that has a title. *)
Definition parseable_date (c : candidate) : Prop :=
  match c with
  | Obj _ _ _ _ => True
  | Dict (Some (DateStr s)) _ _ _ => is_Some (fromisoformat s)
  | Dict (Some (DateObj _)) _ _ _ => True
  | _ => False
  end.

Definition titled (c : candidate) : Prop :=
  match c with
  | Obj _ _ _ _ => True
  | Dict _ (Some _) _ _ => True
  | _ => False
  end.

(** One iteration of the loop of [ingest_llm_events], on the engine and
    the list [new_events]. *)
Definition ingest_one (st : t * list LegalEvent) (event : candidate)
  : t * list LegalEvent :=
  let (self, new_events) := st in
  match convert event with
  | None => st
  | Some legal_event =>
      let fp := _fingerprint legal_event in
      if bool_decide (fp ∈ _fingerprints self) then st
      else
        (with_events self (events self ++ [legal_event])
           ({[fp]} ∪ _fingerprints self)
           ((fun m => TimelineMemory.upsert_event sha256_hexdigest utcnow m legal_event)
              <$> memory self),
         new_events ++ [legal_event])
  end.

(** [ingest_llm_events]: the engine after the call and the newly
    accepted events, or [None] when the final sort raises. *)
Definition ingest_llm_events (self : t) (events : list candidate)
  : option (t * list LegalEvent) :=
  let (self, new_events) := foldl ingest_one (self, []) events in
  sorted ← sort_by_date (TimelineUltra.events self);
  Some (with_events self sorted (_fingerprints self) (memory self), new_events).

(** [get_events] *)
Definition get_events (self : t) : option (list LegalEvent) :=
  sort_by_date (events self).

(** [get_events_range] *)
Definition get_events_range (self : t) (start_date end_date : option datetime)
  : option (list LegalEvent) :=
  events ← get_events self;
  events ←
    match start_date with
    | Some s => filter_by_date (fun d => dt_ge d s) events
    | None => Some events
    end;
  match end_date with
  | Some e => filter_by_date (fun d => dt_le d e) events
  | None => Some events
  end.

(** [clear] *)
Definition clear (self : t) : t :=
  with_events self [] ∅ (memory self).

(** A sequence of [ingest_llm_events] calls on one engine. *)
Fixpoint ingest_all (self : t) (batches : list (list candidate)) : option t :=
  match batches with
  | [] => Some self
  | b :: batches' =>
      r ← ingest_llm_events self b;
      ingest_all r.1 batches'
  end.

End WithRuntime.

End TimelineUltra.

Module TU := TimelineUltra.

(** ** The earlier engine, [core/timeline_engine.py]

    No module of the application imports it; it is modelled to record
    where it departs from [timeline_ultra.py]. *)

Module Core.

(** [core/models.py] *)
Record LegalEvent := mkLegalEvent {
  date : datetime;
  title : str;
  source : str;
  event_type : str;
  text_id : option str;
  score : float;
  metadata : list (str * str) }.

(** A raw event: a dict read with [r["date"]] and [r["title"]]. *)
Record raw := Raw { r_date : option str; r_title : option str }.

Record t := mk {
  events : list LegalEvent;
  _fingerprints : gset (Py.date * str) }.

(** The result of a call: it returns a value, or an exception leaves
    it with the engine as the loop had it. *)
Inductive result (A : Type) :=
| Returned (self : t) (value : A)
| Raised (self : t).
Arguments Returned {A} self value.
Arguments Raised {A} self.

Definition __init__ : t := {| events := []; _fingerprints := ∅ |}.

Section WithRuntime.

Variable lower : str -> str.
Variable fromisoformat : str -> option datetime.

(** [_fp]: the whole normalised title. *)
Definition _fp (e : LegalEvent) : Py.date * str :=
  (date_of (date e), strip (lower (title e))).

(** [_guess_type] *)
Definition _guess_type (title : str) : str :=
  let t := lower title in
  if contains (u "loi") t then u "loi"
  else if contains (u "décret") t then u "decret"
  else if contains (u "arrêté") t then u "arrete"
  else u "texte".

(** [score_event] of [core/reform_detector.py] *)
Definition score_event (event : LegalEvent) : float :=
  let score := 0%float in
  let score := if bool_decide (event_type event = u "loi")
               then (score + 0.4)%float else score in
  let score := if contains (u "codification") (lower (title event))
               then (score + 0.5)%float else score in
  let score := if contains (u "réforme") (lower (title event))
               then (score + 0.3)%float else score in
  Py.min score 1.0%float.

(** The loop of [ingest_llm_events]: a missing key ([KeyError]) or an
    unparseable date ([ValueError]) leaves the loop. *)
Fixpoint ingest_loop (self : t) (new_events : list LegalEvent)
    (raw_events : list raw) : result (list LegalEvent) :=
  match raw_events with
  | [] => Returned self new_events
  | r :: raw_events' =>
      match r_date r, r_title r with
      | Some date_str, Some title =>
          match fromisoformat date_str with
          | None => Raised self
          | Some d =>
              let event :=
                {| date := d; title := title; source := u "llm";
                   event_type := _guess_type title; text_id := None;
                   score := 0%float; metadata := [] |} in
              let fp := _fp event in
              if bool_decide (fp ∈ _fingerprints self)
              then ingest_loop self new_events raw_events'
              else
                let event :=
                  {| date := d; title := title; source := u "llm";
                     event_type := _guess_type title; text_id := None;
                     score := score_event event; metadata := [] |} in
                ingest_loop
                  {| events := events self ++ [event];
                     _fingerprints := {[fp]} ∪ _fingerprints self |}
                  (new_events ++ [event]) raw_events'
          end
      | _, _ => Raised self
      end
  end.

(** [ingest_llm_events] *)
Definition ingest_llm_events (self : t) (raw_events : list raw)
  : result (list LegalEvent) :=
  match ingest_loop self [] raw_events with
  | Returned self new_events =>
      Returned
        {| events := stable_sort (fun a b => dt_lt (date a) (date b)) (events self);
           _fingerprints := _fingerprints self |}
        new_events
  | Raised self => Raised self
  end.

(** [get_events] *)
Definition get_events (self : t) : list LegalEvent := events self.

End WithRuntime.

End Core.

(** ** Regular expressions, as [re] matches them

    A backtracking matcher in continuation-passing style: alternatives
    are tried from left to right, a greedy star tries one more iteration
    before it tries the rest of the pattern and a lazy star the reverse,
    which is the order in which [re] explores a pattern. The classes
    [\d] and [\w] are those of [re] on the Latin-1 range; [\s] is the
    Unicode white space. *)

Module Regex.

Inductive regex :=
| Eps
| Class (p : char -> bool)
| Seq (r1 r2 : regex)
| Alt (r1 r2 : regex)
| Star (greedy : bool) (r : regex)
| Group (i : nat) (r : regex)
| Bol (multiline : bool)
| Eol
| WordBoundary.

(** A position in the subject: its index, the character before it and
    the characters from it on. *)
Record cursor := Cursor { pos : nat; prev : option char; rest : str }.

Definition start_of (s : str) : cursor := Cursor 0 None s.

Definition advance (c : cursor) : option cursor :=
  match rest c with
  | x :: rest' => Some (Cursor (S (pos c)) (Some x) rest')
  | [] => None
  end.

(** The text captured by each group, latest capture first. *)
Definition groups := list (nat * str).
Definition outcome : Type := cursor * groups.

Definition isword (c : char) : bool :=
  ((48 <=? c) && (c <=? 57) || (65 <=? c) && (c <=? 90) || (97 <=? c) && (c <=? 122)
   || (c =? 95) || (c =? 170) || (c =? 178) || (c =? 179) || (c =? 181)
   || (c =? 185) || (c =? 186) || (188 <=? c) && (c <=? 190)
   || (192 <=? c) && (c <=? 214) || (216 <=? c) && (c <=? 246)
   || (248 <=? c) && (c <=? 255))%N.

Definition word_at (o : option char) : bool :=
  match o with Some c => isword c | None => false end.

Fixpoint m (r : regex) (c : cursor) (g : groups)
    (k : cursor -> groups -> option outcome) {struct r} : option outcome :=
  match r with
  | Eps => k c g
  | Class p =>
      match rest c with
      | x :: rest' => if p x then k (Cursor (S (pos c)) (Some x) rest') g else None
      | [] => None
      end
  | Seq r1 r2 => m r1 c g (fun c' g' => m r2 c' g' k)
  | Alt r1 r2 =>
      match m r1 c g k with
      | Some res => Some res
      | None => m r2 c g k
      end
  | Star greedy r1 =>
      (fix loop (n : nat) (c : cursor) (g : groups) {struct n} : option outcome :=
         match n with
         | O => k c g
         | S n' =>
             let more :=
               m r1 c g (fun c' g' =>
                 if (pos c <? pos c')%nat then loop n' c' g' else None) in
             if greedy then
               match more with Some res => Some res | None => k c g end
             else
               match k c g with Some res => Some res | None => more end
         end) (S (length (rest c))) c g
  | Group i r1 =>
      m r1 c g (fun c' g' => k c' ((i, firstn (pos c' - pos c) (rest c)) :: g'))
  | Bol multiline =>
      match prev c with
      | None => k c g
      | Some x => if multiline && (x =? 10)%N then k c g else None
      end
  | Eol =>
      match rest c with
      | [] => k c g
      | [x] => if (x =? 10)%N then k c g else None
      | _ => None
      end
  | WordBoundary =>
      if xorb (word_at (prev c)) (word_at (head (rest c))) then k c g else None
  end.

(** A match object: where it starts, where it ends, its groups. *)
Record match_ := Match { m_start : cursor; m_end : cursor; m_groups : groups }.

(** [m.group(0)], [m.group(i)], [m.start()], [m.end()] *)
Definition group0 (mt : match_) : str :=
  firstn (pos (m_end mt) - pos (m_start mt)) (rest (m_start mt)).

Definition group (i : nat) (mt : match_) : str :=
  default [] (snd <$> List.find (fun p => Nat.eqb p.1 i) (m_groups mt)).

(** The pattern tried at one position. *)
Definition match_at (r : regex) (c : cursor) : option match_ :=
  match m r c [] (fun c' g' => Some (c', g')) with
  | Some (c', g') => Some (Match c c' g')
  | None => None
  end.

(** [re.match(r, s)] *)
Definition match_start (r : regex) (s : str) : option match_ :=
  match_at r (start_of s).

(** The leftmost match from a position on. *)
Fixpoint search_from_aux (r : regex) (p : nat) (pv : option char) (s : str)
  : option match_ :=
  match match_at r (Cursor p pv s) with
  | Some mt => Some mt
  | None =>
      match s with
      | x :: s' => search_from_aux r (S p) (Some x) s'
      | [] => None
      end
  end.

Definition search_from (r : regex) (c : cursor) : option match_ :=
  search_from_aux r (pos c) (prev c) (rest c).

(** [re.search(r, s)] *)
Definition search (r : regex) (s : str) : option match_ :=
  search_from r (start_of s).

(** [re.finditer(r, s)]: the successive matches, none overlapping. *)
Fixpoint finditer_from (r : regex) (fuel : nat) (c : cursor) : list match_ :=
  match fuel with
  | O => []
  | S fuel' =>
      match search_from r c with
      | None => []
      | Some mt =>
          mt ::
          (if (pos (m_start mt) <? pos (m_end mt))%nat
           then finditer_from r fuel' (m_end mt)
           else match advance (m_end mt) with
                | Some c' => finditer_from r fuel' c'
                | None => []
                end)
      end
  end.

Definition finditer (r : regex) (s : str) : list match_ :=
  finditer_from r (S (length s)) (start_of s).

(** [re.findall(r, s)] for a pattern with one group: the texts of the
    group, not of the matches. *)
Definition findall_group1 (r : regex) (s : str) : list str :=
  group 1 <$> finditer r s.

(** [re.sub(r, '', s)] *)
Fixpoint sub_remove_from (r : regex) (fuel : nat) (c : cursor) : str :=
  match fuel with
  | O => rest c
  | S fuel' =>
      match match_at r c with
      | Some mt =>
          if (pos c <? pos (m_end mt))%nat then sub_remove_from r fuel' (m_end mt)
          else match rest c with
               | x :: rest' =>
                   x :: sub_remove_from r fuel' (Cursor (S (pos c)) (Some x) rest')
               | [] => []
               end
      | None =>
          match rest c with
          | x :: rest' =>
              x :: sub_remove_from r fuel' (Cursor (S (pos c)) (Some x) rest')
          | [] => []
          end
      end
  end.

Definition sub_remove (r : regex) (s : str) : str :=
  sub_remove_from r (S (length s)) (start_of s).

(** Pattern syntax. *)
Definition seq (rs : list regex) : regex := foldr Seq Eps rs.
Definition lit (s : str) : regex := seq ((fun ch => Class (N.eqb ch)) <$> s).
Definition plus (greedy : bool) (r : regex) : regex := Seq r (Star greedy r).
Definition opt (r : regex) : regex := Alt r Eps.
Definition rep (n : nat) (r : regex) : regex := seq (repeat r n).
Definition digit : regex := Class isdigit.
Definition space : regex := Class isspace.
Definition word : regex := Class isword.
Definition dot_all : regex := Class (fun _ => true).
Definition none_of (s : str) : regex :=
  Class (fun c => negb (existsb (N.eqb c) s)).
Definition one_of (s : str) : regex := Class (fun c => existsb (N.eqb c) s).

(** A literal under [re.IGNORECASE], for ASCII letters. *)
Definition fold_case (c : char) : char :=
  if ((65 <=? c) && (c <=? 90))%N then (c + 32)%N else c.
Definition lit_nocase (s : str) : regex :=
  seq ((fun ch => Class (fun c => (fold_case c =? fold_case ch)%N)) <$> s).

End Regex.

(** ** The free-text extractor, [timeline_header.py] *)

Module TimelineHeader.

Import Regex.

(** [TimelineEvent] *)
Record TimelineEvent := mkTimelineEvent {
  te_date : datetime;
  te_title : str;
  te_event_type : str;
  te_description : str;
  te_details : str }.

(** A chat message: a dict with optional ["role"] and ["content"]. *)
Record message := Message { role : option str; content : option str }.

(** An element of the array decoded from an embedded JSON block: a
    mapping with optional keys, or a value without [get]. *)
Inductive json_item :=
| JObj (j_date j_title j_type j_description j_details : option str)
| JOther.

(** The patterns of the source. *)
Definition json_pattern : regex :=
  seq [lit (u "["); Star true space; lit (u "{"); Star false dot_all;
       lit (u "}"); Star true space; lit (u "]")].

Definition md_pattern : regex :=
  seq [Bol true; Star true space; Group 1 (rep 4 digit); Star true space;
       lit (u "|"); Star true space; Group 2 (plus true (none_of (u "|")));
       lit (u "|"); Star true space; Group 3 (plus true (none_of [10%N]))].

Definition html_pattern : regex :=
  seq [lit_nocase (u "<td"); Star true (none_of (u ">")); lit (u ">");
       Star true space; Group 1 (rep 4 digit); Star true space;
       lit_nocase (u "</td>"); Star true space;
       lit_nocase (u "<td"); Star true (none_of (u ">")); lit (u ">");
       Group 2 (Star false dot_all); lit_nocase (u "</td>"); Star true space;
       lit_nocase (u "<td"); Star true (none_of (u ">")); lit (u ">");
       Group 3 (Star false dot_all); lit_nocase (u "</td>")].

Definition tag_pattern : regex :=
  seq [lit (u "<"); plus false (none_of (u "<")); lit (u ">")].

Definition full_date_pattern : regex :=
  Group 1 (seq [digit; opt digit; plus true space; plus true word;
                plus true space; rep 4 digit]).

(** [\b(19|20)\d{2}\b]: its only group holds the century. *)
Definition year_pattern : regex :=
  seq [WordBoundary; Group 1 (Alt (lit (u "19")) (lit (u "20")));
       digit; digit; WordBoundary].

Definition year_only_pattern : regex := seq [Bol false; rep 4 digit; Eol].

Definition day_month_year_pattern : regex :=
  seq [Group 1 (seq [digit; opt digit]); plus true space; Group 2 (plus true word);
       plus true space; Group 3 (rep 4 digit)].

Definition numeric_date_pattern : regex :=
  seq [Group 1 (seq [digit; opt digit]); one_of (u "/-");
       Group 2 (seq [digit; opt digit]); one_of (u "/-"); Group 3 (rep 4 digit)].

(** [mois_fr] *)
Definition mois_fr : list (str * Z) :=
  [ (u "janvier", 1); (u "février", 2); (u "mars", 3); (u "avril", 4);
    (u "mai", 5); (u "juin", 6); (u "juillet", 7); (u "août", 8);
    (u "septembre", 9); (u "octobre", 10); (u "novembre", 11); (u "décembre", 12);
    (u "janv", 1); (u "févr", 2); (u "avr", 4); (u "juill", 7); (u "sept", 9);
    (u "oct", 10); (u "nov", 11); (u "déc", 12);
    (u "fev", 2); (u "aout", 8); (u "dec", 12) ].

Definition mois_fr_get (name : str) : option Z :=
  snd <$> List.find (fun kv => bool_decide (kv.1 = name)) mois_fr.

(** [a or b] on optional results: the next pattern is tried when the
    previous one gave nothing. *)
Definition or_else {A} (a : option A) (b : option A) : option A :=
  match a with Some _ => a | None => b end.

Section WithLower.

Variable lower : str -> str.

(** [_parse_date_french]; [None] as argument is a missing date. *)
Definition _parse_date_french (date_str : option str) : option datetime :=
  match date_str with
  | None => None
  | Some [] => None
  | Some raw =>
      let date_str := strip raw in
      let pattern1 :=
        match match_start year_only_pattern date_str with
        | Some _ => make_datetime (int_of_digits date_str) 1 1
        | None => None
        end in
      let pattern2 :=
        match search day_month_year_pattern (lower date_str) with
        | Some mt =>
            match mois_fr_get (group 2 mt) with
            | Some month =>
                make_datetime (int_of_digits (group 3 mt)) month
                              (int_of_digits (group 1 mt))
            | None => None
            end
        | None => None
        end in
      let pattern3 :=
        match search numeric_date_pattern date_str with
        | Some mt =>
            make_datetime (int_of_digits (group 3 mt)) (int_of_digits (group 2 mt))
                          (int_of_digits (group 1 mt))
        | None => None
        end in
      let pattern4 :=
        match search year_pattern date_str with
        | Some mt => make_datetime (int_of_digits (group0 mt)) 1 1
        | None => None
        end in
      or_else pattern1 (or_else pattern2 (or_else pattern3 pattern4))
  end.

(** The loop over the decoded JSON array: the events built so far, and
    whether the loop ran to its end ([false]: an item raised). *)
Fixpoint json_events (data : list json_item) (events : list TimelineEvent)
  : list TimelineEvent * bool :=
  match data with
  | [] => (events, true)
  | JOther :: _ => (events, false)
  | JObj j_date j_title j_type j_description j_details :: data' =>
      match _parse_date_french j_date with
      | None => json_events data' events
      | Some d =>
          json_events data'
            (events ++ [mkTimelineEvent d (default (u "Événement") j_title)
                          (default (u "modification") j_type)
                          (default [] j_description) (default [] j_details)])
      end
  end.

(** Markdown table rows. *)
Definition md_events (text : str) : list TimelineEvent :=
  omap (fun mt =>
          match _parse_date_french (Some (group 1 mt)) with
          | None => None
          | Some d =>
              Some (mkTimelineEvent d (slice_to 60 (strip (group 2 mt)))
                      (u "modification") (slice_to 120 (strip (group 3 mt))) [])
          end)
       (finditer md_pattern text).

(** HTML table rows. *)
Definition html_events (text : str) : list TimelineEvent :=
  omap (fun mt =>
          match _parse_date_french (Some (group 1 mt)) with
          | None => None
          | Some d =>
              let title := strip (sub_remove tag_pattern (group 2 mt)) in
              let desc := strip (sub_remove tag_pattern (group 3 mt)) in
              Some (mkTimelineEvent d (slice_to 60 title) (u "modification")
                      (slice_to 120 desc) [])
          end)
       (finditer html_pattern text).

(** [s.replace("\n", " ")] *)
Definition unfold_lines (s : str) : str :=
  (fun c => if (c =? 10)%N then 32%N else c) <$> s.

(** Full dates in prose. *)
Definition full_date_events (text : str) : list TimelineEvent :=
  omap (fun mt =>
          match _parse_date_french (Some (group 1 mt)) with
          | None => None
          | Some d =>
              let snippet_start := (pos (m_start mt) - 40)%nat in
              let snippet_end := Nat.min (length text) (pos (m_end mt) + 80) in
              let snippet :=
                unfold_lines
                  (skipn snippet_start (firstn snippet_end text)) in
              Some (mkTimelineEvent d (u "Texte juridique") (u "publication")
                      (slice_to 120 snippet) [])
          end)
       (finditer full_date_pattern text).

(** Bare years. [set(years)] is iterated in the order of first
    occurrence; the order of a Python set is not specified. *)
Definition year_events (text : str) : list TimelineEvent :=
  let years := findall_group1 year_pattern text in
  omap (fun year =>
          match _parse_date_french (Some year) with
          | Some d =>
              Some (mkTimelineEvent d (u "Année " ++ year) (u "modification")
                      (u "Événement détecté automatiquement") [])
          | None => None
          end)
       (remove_dups years).

(** The final deduplication: the first event of each calendar day. *)
Fixpoint unique_by_day (events : list TimelineEvent) (seen : list Py.date)
  : list TimelineEvent :=
  match events with
  | [] => []
  | e :: events' =>
      let key := date_of (te_date e) in
      if bool_decide (key ∈ seen) then unique_by_day events' seen
      else e :: unique_by_day events' (key :: seen)
  end.

Definition sorted_by_date (events : list TimelineEvent) : list TimelineEvent :=
  stable_sort (fun a b => dt_lt (te_date a) (te_date b)) events.

(** The last assistant message, if any. *)
Definition last_assistant_message (messages : list message) : option str :=
  (fun msg => default [] (content msg)) <$>
  List.find (fun msg => bool_decide (role msg = Some (u "assistant")))
            (rev messages).

(** [json.loads] on the text of the JSON block: [None] when it raises or
    when the value cannot be iterated. *)
Variable json_loads : str -> option (list json_item).

(** [extract_events_from_last_response] *)
Definition extract_events_from_last_response (messages : list message)
  : list TimelineEvent :=
  match last_assistant_message messages with
  | None => []
  | Some [] => []
  | Some text =>
      let from_json :=
        match search json_pattern text with
        | Some mt =>
            match json_loads (group0 mt) with
            | Some data => json_events data []
            | None => ([], false)
            end
        | None => ([], false)
        end in
      if from_json.2 then sorted_by_date from_json.1
      else
        let events := from_json.1 in
        let events := events ++ md_events text in
        let events := events ++ html_events text in
        let events := events ++ full_date_events text in
        let events := events ++ year_events text in
        let final_events := unique_by_day events [] in
        sorted_by_date final_events
  end.

End WithLower.

End TimelineHeader.

Module TH := TimelineHeader.

(** ** A runtime to execute the model on examples

    The engine is parametrised by the library functions it calls. The
    instances below agree with Python on the inputs of the examples:
    [lower] on the Latin-1 letters, [fromisoformat] on the forms
    [YYYY-MM-DD] and [YYYY-MM-DDTHH:MM:SS]; [hexdigest] is an injective
    stand-in for SHA-256 and
    [utcnow] a clock ticking once a second. *)

Module Runtime.

Definition lower_char (c : char) : char :=
  if ((65 <=? c) && (c <=? 90))%N then (c + 32)%N
  else if ((192 <=? c) && (c <=? 222) && negb (c =? 215))%N then (c + 32)%N
  else c.

Definition lower (s : str) : str := List.map lower_char s.

Definition calendar_date (s : str) : option datetime :=
  match s with
  | [y1; y2; y3; y4; 45%N; m1; m2; 45%N; d1; d2] =>
      if forallb isdigit [y1; y2; y3; y4; m1; m2; d1; d2]
      then make_datetime (int_of_digits [y1; y2; y3; y4])
                         (int_of_digits [m1; m2]) (int_of_digits [d1; d2])
      else None
  | _ => None
  end.

Definition time_of_day (dt : datetime) (s : str) : option datetime :=
  match firstn 8 s with
  | [h1; h2; 58%N; m1; m2; 58%N; s1; s2] =>
      let h := int_of_digits [h1; h2] in
      let mi := int_of_digits [m1; m2] in
      let se := int_of_digits [s1; s2] in
      let us :=
        match skipn 8 s with
        | [] => Some 0
        | dot :: frac =>
            if (dot =? 46)%N && (length frac =? 6)%nat && forallb isdigit frac
            then Some (int_of_digits frac) else None
        end in
      if forallb isdigit [h1; h2; m1; m2; s1; s2]
         && (h <? 24) && (mi <? 60) && (se <? 60)
      then (fun us => Datetime (year dt) (month dt) (day dt) h mi se us) <$> us
      else None
  | _ => None
  end.

(** [YYYY-MM-DD], alone or followed by [THH:MM:SS] and an optional
    [.ffffff], the two forms that [isoformat] writes. *)
Definition fromisoformat (s : str) : option datetime :=
  match calendar_date (firstn 10 s) with
  | None => None
  | Some dt =>
      match skipn 10 s with
      | [] => Some dt
      | sep :: time => if (sep =? 84)%N then time_of_day dt time else None
      end
  end.

Definition hexdigest (s : str) : str := s.

Definition utcnow (n : nat) : datetime :=
  Datetime 2026 1 31 12 0 (Z.of_nat n) 0.

End Runtime.

(** ** Sample inputs *)

Definition sample_batches : list (list TU.candidate) :=
  [ [TU.Dict (Some (TU.DateStr (u "2019-11-01"))) (Some (u "Loi B")) None None;
     TU.Dict (Some (TU.DateStr (u "2017-05-01"))) (Some (u "Loi A")) None None];
    [TU.Obj (Datetime 2018 6 15 0 0 0 0) (u "Décret C") (Some (u "decret")) None;
     TU.Dict (Some (TU.DateStr (u "n/a"))) (Some (u "Sans date")) None None] ].

Definition fresh_engine : TU.t :=
  TU.__init__ Runtime.lower Runtime.fromisoformat true None TimelineMemory.Absent.

Definition dict_candidate (d ttl : string) : TU.candidate :=
  TU.Dict (Some (TU.DateStr (u d))) (Some (u ttl)) None None.

(** Two titles of 101 characters that differ in the last one only. *)
Definition long_title (last : string) : str := repeat 97%N 100 ++ u last.

(** The timeline of scenario D of the specification. *)
Definition scenario_d : TU.t :=
  TU.with_events fresh_engine
    [ mkLegalEvent (Some (Datetime 2020 1 1 0 0 0 0)) (u "d") (u "llm") (u "loi") [] 0.4;
      mkLegalEvent (Some (Datetime 2018 6 15 0 0 0 0)) (u "b") (u "llm") (u "loi") [] 0.4;
      mkLegalEvent (Some (Datetime 2017 5 1 0 0 0 0)) (u "a") (u "llm") (u "loi") [] 0.4;
      mkLegalEvent (Some (Datetime 2019 11 1 0 0 0 0)) (u "c") (u "llm") (u "loi") [] 0.4 ]
    ∅ None.

(** A descriptor without ["date"] key. *)
Definition dateless : TU.candidate :=
  TU.Dict None (Some (u "Loi A")) None None.

(** A descriptor without title, and one whose title is blank. *)
Definition untitled : TU.candidate :=
  TU.Dict (Some (TU.DateStr (u "2020-01-01"))) None None None.

Definition blank_titled : TU.candidate :=
  TU.Dict (Some (TU.DateStr (u "2021-01-01"))) (Some (u "   ")) None None.

Definition untitled_event : LegalEvent :=
  mkLegalEvent (Some (Datetime 2020 1 1 0 0 0 0)) [] (u "llm") (u "modification") [] 0.

(** A reply that mentions a year and nothing the other strategies of
    the extractor recognise. *)
Definition bare_year_reply : list TimelineHeader.message :=
  [ TimelineHeader.Message (Some (u "user")) (Some (u "Quand le code a-t-il changé ?"));
    TimelineHeader.Message (Some (u "assistant"))
      (Some (u "La réforme de 2020 a modifié le code du travail.")) ].

Definition scenario_c_reply : list TimelineHeader.message :=
  [ TimelineHeader.Message (Some (u "assistant"))
      (Some (u "Le décret n° 2020-1310 du 29 octobre 2020 est entré en vigueur.")) ].

(** No JSON decoder is needed for replies without JSON block. *)
Definition no_json (s : str) : option (list TimelineHeader.json_item) := None.

Definition raw_event (d ttl : str) : Core.raw := Core.Raw (Some d) (Some ttl).

(** * Properties *)

Example fromisoformat_ex :
  Runtime.fromisoformat (u "2016-08-08") = Some (Datetime 2016 8 8 0 0 0 0)
  /\ Runtime.fromisoformat (u "2016-02-30") = None
  /\ Runtime.fromisoformat (u "pas une date") = None.
Proof. vm_compute. auto. Qed.

Example isoformat_ex :
  isoformat (Datetime 2016 8 8 0 0 0 0) = u "2016-08-08T00:00:00".
Proof. vm_compute. reflexivity. Qed.

Example lower_ex : Runtime.lower (u "RÉFORME du Code") = u "réforme du code".
Proof. vm_compute. reflexivity. Qed.

(** ** The scorer *)

Lemma loi_is_not_decret : u "loi" <> u "decret".
Proof. vm_compute. discriminate. Qed.

(** C5. For every title and event type, [_score_event] equals the capped
    sum of the specification (0.4 for "loi", 0.2 for "decret", 0.3 for
    "réforme" or "codification" in the lower-cased title, 0.2 for
    "travail", "social" or "emploi"), and the result lies in [0, 1]. The
    function depends on its two arguments only. *)
Theorem score_event_spec (lower : str -> str) (title event_type : str) :
  Scorer._score_event lower title event_type
    = Scorer.spec_score lower title event_type
  /\ PrimFloat.leb 0 (Scorer._score_event lower title event_type) = true
  /\ PrimFloat.leb (Scorer._score_event lower title event_type) 1 = true.
Proof.
  unfold Scorer._score_event, Scorer.spec_score, Scorer.term, Py.any, existsb.
  repeat case_bool_decide; subst;
    try (exfalso; apply loi_is_not_decret; congruence);
    destruct (contains (u "réforme") (lower title));
    destruct (contains (u "codification") (lower title));
    destruct (contains (u "travail") (lower title));
    destruct (contains (u "social") (lower title));
    destruct (contains (u "emploi") (lower title));
    vm_compute; auto.
Qed.

(** ** The order on datetimes *)

Lemma lex_lt_irrefl a : lex_lt a a = false.
Proof.
  induction a as [|x a IH]; simpl; [done|].
  rewrite IH, Z.ltb_irrefl. by rewrite andb_false_r.
Qed.

Lemma lex_lt_asym a b : lex_lt a b = true -> lex_lt b a = false.
Proof.
  revert b. induction a as [|x a IH]; intros [|y b]; simpl; try done.
  intros H. apply orb_true_iff in H as [H|H].
  - apply Z.ltb_lt in H.
    apply orb_false_iff. split; [apply Z.ltb_ge; lia|].
    apply andb_false_iff. left. apply Z.eqb_neq. lia.
  - apply andb_true_iff in H as [Hxy H]. apply Z.eqb_eq in Hxy. subst y.
    rewrite Z.ltb_irrefl, Z.eqb_refl. simpl. by apply IH.
Qed.

Lemma lex_le_trans a b c :
  lex_lt b a = false -> lex_lt c b = false -> lex_lt c a = false.
Proof.
  revert b c. induction a as [|x a IH]; intros [|y b] [|z c]; simpl; try done.
  intros H1 H2.
  apply orb_false_iff in H1 as [H1 H1']. apply Z.ltb_ge in H1.
  apply orb_false_iff in H2 as [H2 H2']. apply Z.ltb_ge in H2.
  apply orb_false_iff. split; [apply Z.ltb_ge; lia|].
  destruct (Z.eqb_spec z x) as [->|Hne]; [|done]. simpl.
  assert (y = x) as -> by lia.
  rewrite Z.eqb_refl in H1', H2'. simpl in H1', H2'. by eapply IH.
Qed.

Lemma dt_le_refl a : dt_le a a = true.
Proof. unfold dt_le, dt_lt. by rewrite lex_lt_irrefl. Qed.

Lemma dt_le_trans a b c : dt_le a b = true -> dt_le b c = true -> dt_le a c = true.
Proof.
  unfold dt_le, dt_lt. rewrite !negb_true_iff. intros H1 H2.
  eapply lex_le_trans; eauto.
Qed.

Lemma dt_lt_le a b : dt_lt a b = true -> dt_le a b = true.
Proof. unfold dt_le, dt_lt. intros H. by rewrite (lex_lt_asym _ _ H). Qed.

Lemma dt_ge_le a b : dt_ge a b = dt_le b a.
Proof. done. Qed.

(** [isoformat] never writes the empty string. *)
Lemma isoformat_nonempty d : isoformat d <> [].
Proof.
  unfold isoformat. intros H.
  apply app_eq_nil in H as [_ H]. apply app_eq_nil in H as [H _].
  vm_compute in H. discriminate.
Qed.

(** ** The stable sort *)

Section SortFacts.
Context {A : Type} (lt : A -> A -> bool).

Lemma insert_sorted_perm x l : insert_sorted lt x l ≡ₚ x :: l.
Proof.
  induction l as [|y l IH]; simpl; [done|].
  destruct (lt y x); [|done].
  rewrite IH. apply perm_swap.
Qed.

Lemma stable_sort_perm l : stable_sort lt l ≡ₚ l.
Proof.
  induction l as [|x l IH]; simpl; [done|].
  by rewrite insert_sorted_perm, IH.
Qed.

(** A list already in order is left as it is. *)
Lemma stable_sort_sorted l :
  Sorted (fun a b => lt b a = false) l -> stable_sort lt l = l.
Proof.
  induction 1 as [|x l Hs IH Hhd]; simpl; [done|].
  rewrite IH. destruct Hhd as [|y l' Hxy]; simpl; [done|]. by rewrite Hxy.
Qed.
End SortFacts.

(** ** Sorting events by date *)


Lemma date_le_trans a b c : TU.date_le a b -> TU.date_le b c -> TU.date_le a c.
Proof.
  unfold TU.date_le. destruct (date a), (date b), (date c); try done.
  apply dt_le_trans.
Qed.

Lemma event_lt_date_le a b : TU.event_lt a b = true -> TU.date_le a b.
Proof.
  unfold TU.event_lt, TU.date_le. destruct (date a), (date b); try done.
  apply dt_lt_le.
Qed.

Lemma event_nlt_date_le a b :
  TU.has_date a = true -> TU.has_date b = true ->
  TU.event_lt b a = false -> TU.date_le a b.
Proof.
  unfold TU.event_lt, TU.date_le, TU.has_date, dt_le.
  destruct (date a), (date b); try done. intros _ _ ->. done.
Qed.

Lemma insert_sorted_dated x s :
  TU.has_date x = true -> TU.all_dated s ->
  StronglySorted TU.date_le s ->
  StronglySorted TU.date_le (insert_sorted TU.event_lt x s).
Proof.
  intros Hx Hs Hsorted. induction Hsorted as [|y s' Hs' IH Hy]; simpl.
  { repeat constructor. }
  apply Forall_cons in Hs as [Hdy Hds].
  destruct (TU.event_lt y x) eqn:Hlt.
  - constructor; [by apply IH|].
    rewrite insert_sorted_perm. constructor; [by apply event_lt_date_le|done].
  - assert (TU.date_le x y) as Hxy by by apply event_nlt_date_le.
    constructor; [by constructor|].
    constructor; [done|].
    eapply Forall_impl; [exact Hy|]. intros z Hz. by eapply date_le_trans.
Qed.

Lemma stable_sort_dated l :
  TU.all_dated l -> StronglySorted TU.date_le (stable_sort TU.event_lt l).
Proof.
  induction 1 as [|x l Hx Hl IH]; simpl; [constructor|].
  apply insert_sorted_dated; [done| |done].
  unfold TU.all_dated. by rewrite stable_sort_perm.
Qed.

Lemma forallb_has_date l : forallb TU.has_date l = true <-> TU.all_dated l.
Proof.
  unfold TU.all_dated. rewrite forallb_forall, Forall_forall.
  split; intros H x Hx; apply H; by apply list_elem_of_In.
Qed.

(** Whenever the sort returns, its result is in date order and is a
    rearrangement of its argument. *)
Lemma sort_by_date_spec l l' :
  TU.sort_by_date l = Some l' -> StronglySorted TU.date_le l' /\ l' ≡ₚ l.
Proof.
  destruct l as [|a [|b l]]; simpl.
  - intros [= <-]. split; [constructor|done].
  - intros [= <-]. split; [repeat constructor|done].
  - destruct (TU.has_date a && (TU.has_date b && forallb TU.has_date l)) eqn:Hd;
      [|done].
    intros [= <-]. split; [|apply (stable_sort_perm TU.event_lt (a :: b :: l))].
    apply (stable_sort_dated (a :: b :: l)). by apply forallb_has_date.
Qed.

(** The sort returns on lists of dated events. *)
Lemma sort_by_date_dated l :
  TU.all_dated l -> TU.sort_by_date l = Some (stable_sort TU.event_lt l).
Proof.
  intros H. destruct l as [|a [|b l]]; [done|done|].
  apply forallb_has_date in H. unfold TU.sort_by_date. by rewrite H.
Qed.

Lemma date_le_nlt a b : TU.date_le a b -> TU.event_lt b a = false.
Proof.
  unfold TU.date_le, TU.event_lt, dt_le.
  destruct (date a), (date b); try done. by rewrite negb_true_iff.
Qed.

Lemma date_le_dated a b :
  TU.date_le a b -> TU.has_date a = true /\ TU.has_date b = true.
Proof. unfold TU.date_le, TU.has_date. by destruct (date a), (date b). Qed.

(** Sorting a list that is in date order changes nothing. *)
Lemma sort_by_date_fixed l :
  StronglySorted TU.date_le l -> TU.sort_by_date l = Some l.
Proof.
  intros Hs. destruct l as [|a [|b l]]; [done|done|].
  assert (TU.all_dated (a :: b :: l)) as Hd.
  { apply StronglySorted_inv in Hs as [_ Ha].
    constructor.
    - apply Forall_cons in Ha as [Hab _]. by destruct (date_le_dated _ _ Hab).
    - eapply Forall_impl; [exact Ha|]. intros z Hz.
      by destruct (date_le_dated _ _ Hz). }
  rewrite sort_by_date_dated by done. f_equal.
  apply stable_sort_sorted. apply StronglySorted_Sorted in Hs.
  eapply Sorted_ind with (P := fun l => Sorted _ l); [constructor| |exact Hs].
  intros x l' _ IH Hhd. constructor; [done|].
  destruct Hhd; constructor. by apply date_le_nlt.
Qed.

(** ** The ingestion loop *)

Section UltraFacts.

Variable lower : str -> str.
Variable fromisoformat : str -> option datetime.
Variable sha256_hexdigest : str -> str.
Variable utcnow : nat -> datetime.

Local Abbreviation convert := (TU.convert lower fromisoformat).
Local Abbreviation _fingerprint := (TU._fingerprint lower).
Local Abbreviation ingest_one := (TU.ingest_one lower fromisoformat sha256_hexdigest utcnow).
Local Abbreviation ingest_llm_events :=
  (TU.ingest_llm_events lower fromisoformat sha256_hexdigest utcnow).
Local Abbreviation ingest_all := (TU.ingest_all lower fromisoformat sha256_hexdigest utcnow).
Local Abbreviation parseable_date := (TU.parseable_date fromisoformat).
Local Abbreviation upsert := (TimelineMemory.upsert_event sha256_hexdigest utcnow).

Lemma with_events_id self :
  TU.with_events self (TU.events self) (TU._fingerprints self) (TU.memory self) = self.
Proof. by destruct self. Qed.

Lemma ingest_one_skip st c : convert c = None -> ingest_one st c = st.
Proof. intros H. destruct st as [self new]. unfold TU.ingest_one. by rewrite H. Qed.

Lemma ingest_one_dup st c e :
  convert c = Some e -> _fingerprint e ∈ TU._fingerprints st.1 ->
  ingest_one st c = st.
Proof.
  intros H Hin. destruct st as [self new]. unfold TU.ingest_one. rewrite H.
  by rewrite bool_decide_eq_true_2.
Qed.

Lemma ingest_one_new self new c e :
  convert c = Some e -> _fingerprint e ∉ TU._fingerprints self ->
  ingest_one (self, new) c =
    (TU.with_events self (TU.events self ++ [e])
       ({[_fingerprint e]} ∪ TU._fingerprints self)
       ((fun m => upsert m e) <$> TU.memory self),
     new ++ [e]).
Proof.
  intros H Hin. unfold TU.ingest_one. rewrite H.
  by rewrite bool_decide_eq_false_2.
Qed.

(** The three cases of an iteration share the end of their proofs. *)
Local Ltac known_after Hall Hc Hf :=
  let c' := fresh "c" in
  let e' := fresh "e" in
  let Hin := fresh "Hin" in
  let Hconv := fresh "Hconv" in
  intros c' e' Hin Hconv; apply elem_of_cons in Hin as [->|Hin];
  [ rewrite Hc in Hconv; try discriminate; injection Hconv as <-;
    rewrite Hf; set_solver
  | by eapply Hall ].

Local Ltac origin_further Hadd :=
  eapply Forall_impl; [exact Hadd|];
  intros ? (? & ? & ?); eexists; split; [by right|done].

(** What one batch does to the engine: the accepted events are appended
    to [events] and to [new_events], their fingerprints join the set, and
    every candidate that converts has its fingerprint known afterwards. *)
Lemma ingest_loop_spec l : forall self new self' new',
  foldl ingest_one (self, new) l = (self', new') ->
  exists added,
    TU.events self' = TU.events self ++ added
    /\ new' = new ++ added
    /\ TU._fingerprints self' =
         list_to_set (_fingerprint <$> added) ∪ TU._fingerprints self
    /\ (forall c e, c ∈ l -> convert c = Some e ->
          _fingerprint e ∈ TU._fingerprints self')
    /\ Forall (fun e => exists c, c ∈ l /\ convert c = Some e) added.
Proof.
  induction l as [|c l IH]; intros self new self' new'; cbn [foldl].
  - intros [= <- <-]. exists []. rewrite !app_nil_r. repeat split.
    + set_solver.
    + intros c e Hc. by apply elem_of_nil in Hc.
    + constructor.
  - destruct (convert c) as [e|] eqn:Hc.
    + destruct (decide (_fingerprint e ∈ TU._fingerprints self)) as [Hin|Hin].
      * rewrite (ingest_one_dup (self, new) c e) by done.
        intros H. apply IH in H as (added & He & Hn & Hf & Hall & Hadd).
        exists added. repeat split; try done.
        -- known_after Hall Hc Hf.
        -- origin_further Hadd.
      * rewrite (ingest_one_new self new c e) by done.
        intros H. apply IH in H as (added & He & Hn & Hf & Hall & Hadd).
        cbn [TU.with_events TU.events TU._fingerprints] in *.
        exists (e :: added). repeat split.
        -- by rewrite He, <- app_assoc.
        -- by rewrite Hn, <- app_assoc.
        -- rewrite Hf. cbn. set_solver.
        -- known_after Hall Hc Hf.
        -- constructor; [exists c; split; [by left|done]|].
           origin_further Hadd.
    + rewrite ingest_one_skip by done.
      intros H. apply IH in H as (added & He & Hn & Hf & Hall & Hadd).
      exists added. repeat split; try done.
      * known_after Hall Hc Hf.
      * origin_further Hadd.
Qed.

Lemma convert_dated c e :
  TU.with_date c = true -> convert c = Some e -> TU.has_date e = true.
Proof.
  destruct c as [d t et ds|[[s|d]|] t et ds|]; simpl; try done.
  - by intros _ [= <-].
  - destruct (fromisoformat s); [|done]. by intros _ [= <-].
  - by intros _ [= <-].
Qed.

Lemma parseable_convert c : parseable_date c -> is_Some (convert c).
Proof.
  destruct c as [d t et ds|[[s|d]|] t et ds|]; simpl; try done.
  intros [d ->]. done.
Qed.

Lemma parseable_with_date c : parseable_date c -> TU.with_date c = true.
Proof. by destruct c as [d t et ds|[[s|d]|] t et ds|]. Qed.

(** One call on an engine of dated events, with candidates that have a
    date: the call returns, [events] ends in date order and holds the old
    events and the accepted ones. *)
Lemma ingest_llm_events_spec self batch :
  TU.all_dated (TU.events self) -> Forall (fun c => TU.with_date c = true) batch ->
  exists self' new,
    ingest_llm_events self batch = Some (self', new)
    /\ StronglySorted TU.date_le (TU.events self')
    /\ TU.events self' ≡ₚ TU.events self ++ new
    /\ TU.all_dated (TU.events self')
    /\ TU._fingerprints self' =
         list_to_set (_fingerprint <$> new) ∪ TU._fingerprints self
    /\ (forall c e, c ∈ batch -> convert c = Some e ->
          _fingerprint e ∈ TU._fingerprints self').
Proof.
  intros Hd Hb. unfold TU.ingest_llm_events.
  destruct (foldl ingest_one (self, []) batch) as [s1 n1] eqn:Hloop.
  apply ingest_loop_spec in Hloop as (added & He & Hn & Hf & Hall & Hadd).
  simpl in Hn. subst n1.
  assert (TU.all_dated (TU.events s1)) as Hd1.
  { rewrite He. apply Forall_app. split; [done|].
    eapply Forall_impl; [exact Hadd|]. intros e (c & Hc & Hconv).
    eapply convert_dated; [|exact Hconv].
    rewrite Forall_forall in Hb. by apply Hb. }
  rewrite (sort_by_date_dated _ Hd1). simpl.
  eexists _, _. split; [reflexivity|]. simpl.
  assert (stable_sort TU.event_lt (TU.events s1) ≡ₚ TU.events s1) as Hp
    by apply stable_sort_perm.
  repeat split; try done.
  - by apply stable_sort_dated.
  - by rewrite Hp, He.
  - unfold TU.all_dated. by rewrite Hp.
Qed.

(** A batch whose candidates are skipped or known leaves the loop where
    it started. *)
Lemma ingest_loop_known l : forall st,
  (forall c e, c ∈ l -> convert c = Some e ->
     _fingerprint e ∈ TU._fingerprints st.1) ->
  foldl ingest_one st l = st.
Proof.
  induction l as [|c l IH]; intros st H; cbn [foldl]; [done|].
  assert (ingest_one st c = st) as ->.
  { destruct (convert c) as [e|] eqn:Hc.
    - apply (ingest_one_dup st c e Hc). apply (H c e); [by left|done].
    - by apply ingest_one_skip. }
  apply IH. intros c' e' Hc'. apply H. by right.
Qed.

(** Idempotence on any engine: a batch ingested a second time yields no
    newly accepted event and leaves the engine as the first call left it. *)
Lemma ingest_twice self batch self1 new1 :
  ingest_llm_events self batch = Some (self1, new1) ->
  ingest_llm_events self1 batch = Some (self1, []).
Proof.
  unfold TU.ingest_llm_events at 1.
  destruct (foldl ingest_one (self, []) batch) as [s n] eqn:Hloop.
  apply ingest_loop_spec in Hloop as (added & _ & _ & _ & Hall & _).
  destruct (TU.sort_by_date (TU.events s)) as [sorted|] eqn:Hsort; [|done].
  intros [= <- <-]. unfold TU.ingest_llm_events.
  rewrite ingest_loop_known by done.
  cbn [TU.with_events TU.events TU._fingerprints TU.memory].
  apply sort_by_date_spec in Hsort as [Hsorted _].
  by rewrite (sort_by_date_fixed _ Hsorted).
Qed.

(** C1. Ingestion is idempotent. On an engine without events, a
    candidate with a parseable date and a title is accepted by a first
    call; a second call with the same candidate returns no newly accepted
    event and leaves the engine as it was, and [get_events] has length 1. *)
Theorem ingest_idempotent self c :
  TU.events self = [] -> TU._fingerprints self = ∅ ->
  parseable_date c -> TU.titled c ->
  exists e self1,
    convert c = Some e
    /\ ingest_llm_events self [c] = Some (self1, [e])
    /\ ingest_llm_events self1 [c] = Some (self1, [])
    /\ TU.get_events self1 = Some [e]
    /\ length (TU.events self1) = 1%nat.
Proof.
  intros Hev Hfp Hc _.
  destruct (parseable_convert c Hc) as [e He].
  exists e. eexists. unfold TU.ingest_llm_events. cbn [foldl].
  rewrite (ingest_one_new self [] c e He) by (rewrite Hfp; set_solver).
  split; [done|].
  rewrite Hev. cbn [app TU.with_events TU.events TU.sort_by_date mbind option_bind
                    TU._fingerprints TU.memory TU.enable_memory TU.conversation_id].
  split; [reflexivity|].
  rewrite (ingest_one_dup _ c e He) by (cbn; set_solver).
  cbn. done.
Qed.

(** Whenever [get_events] returns, its result is in date order. *)
Lemma get_events_in_order self l :
  TU.get_events self = Some l -> StronglySorted TU.date_le l /\ l ≡ₚ TU.events self.
Proof. apply sort_by_date_spec. Qed.

Lemma ingest_all_dated batches : forall self,
  TU.all_dated (TU.events self) ->
  Forall (Forall (fun c => TU.with_date c = true)) batches ->
  exists self', ingest_all self batches = Some self'
                /\ TU.all_dated (TU.events self').
Proof.
  induction batches as [|b batches IH]; intros self Hd Hb; simpl.
  - by exists self.
  - apply Forall_cons in Hb as [Hb Hbs].
    destruct (ingest_llm_events_spec self b Hd Hb)
      as (self1 & new & -> & _ & _ & Hd1 & _).
    simpl. by apply IH.
Qed.

(** The order invariant for candidates that carry a date. After any
    sequence of such ingest calls on an engine whose events are dated,
    every call returns and [get_events] returns the events of the engine
    sorted non-decreasing by date. *)
Theorem get_events_sorted self batches :
  TU.all_dated (TU.events self) ->
  Forall (Forall (fun c => TU.with_date c = true)) batches ->
  exists self' l,
    ingest_all self batches = Some self'
    /\ TU.get_events self' = Some l
    /\ StronglySorted TU.date_le l
    /\ l ≡ₚ TU.events self'.
Proof.
  intros Hd Hb.
  destruct (ingest_all_dated batches self Hd Hb) as (self' & Hrun & Hd').
  exists self', (stable_sort TU.event_lt (TU.events self')).
  assert (TU.get_events self' = Some (stable_sort TU.event_lt (TU.events self')))
    as Hget by by apply sort_by_date_dated.
  split; [done|]. split; [done|]. by apply get_events_in_order.
Qed.

(** A dict without ["date"] key is converted with the date [None] and
    accepted; on an engine that holds an event already, the sort that
    ends the call then compares [None] with a datetime and raises. *)
Lemma dateless_candidate_raises self (ttl ty descr : option str) :
  TU.events self <> [] ->
  _fingerprint (mkLegalEvent None (default [] ttl) (u "llm")
                  (default (u "modification") ty) (default [] descr)
                  (TU._score_event lower (default [] ttl) (default [] ty)))
    ∉ TU._fingerprints self ->
  TU.ingest_llm_events lower fromisoformat sha256_hexdigest utcnow self
    [TU.Dict None ttl ty descr] = None.
Proof.
  intros Hev Hnew. unfold TU.ingest_llm_events. cbn [foldl].
  rewrite (ingest_one_new self [] (TU.Dict None ttl ty descr) _ eq_refl Hnew).
  cbn [TU.with_events TU.events].
  destruct (TU.events self) as [|a l]; [done|].
  assert (forallb TU.has_date ((a :: l) ++
            [mkLegalEvent None (default [] ttl) (u "llm")
               (default (u "modification") ty) (default [] descr)
               (TU._score_event lower (default [] ttl) (default [] ty))]) = false) as Hf.
  { rewrite forallb_app. cbn. by rewrite andb_false_r. }
  unfold TU.sort_by_date. destruct l; cbn [app] in *; by rewrite Hf.
Qed.

(** A candidate that does not convert leaves the whole call as it is. *)
Lemma ingest_skip_anywhere self pre post c :
  convert c = None ->
  ingest_llm_events self (pre ++ c :: post) = ingest_llm_events self (pre ++ post).
Proof.
  intros Hc. unfold TU.ingest_llm_events.
  rewrite !foldl_app. cbn [foldl]. by rewrite ingest_one_skip.
Qed.

(** C3. Partial-failure isolation. In a batch whose other candidates are
    well formed, a dict candidate with an unparseable date string raises
    nothing and is skipped: the call returns what it returns on the batch
    without that candidate, and each other candidate is accepted or
    deduplicated (against the batch or against the engine). *)
Theorem ingest_skips_bad_date self pre post s ttl ty descr :
  fromisoformat s = None ->
  TU.all_dated (TU.events self) ->
  Forall parseable_date (pre ++ post) ->
  exists self' new,
    ingest_llm_events self (pre ++ TU.Dict (Some (TU.DateStr s)) ttl ty descr :: post)
      = Some (self', new)
    /\ ingest_llm_events self (pre ++ post) = Some (self', new)
    /\ forall c, c ∈ pre ++ post ->
         exists e, convert c = Some e
           /\ ((exists e0, e0 ∈ new /\ _fingerprint e0 = _fingerprint e)
               \/ _fingerprint e ∈ TU._fingerprints self).
Proof.
  intros Hs Hd Hp.
  rewrite ingest_skip_anywhere by (simpl; by rewrite Hs).
  assert (Forall (fun c => TU.with_date c = true) (pre ++ post)) as Hw.
  { eapply Forall_impl; [exact Hp|]. apply parseable_with_date. }
  destruct (ingest_llm_events_spec self _ Hd Hw)
    as (self' & new & Hrun & _ & _ & _ & Hf & Hall).
  exists self', new. split; [done|]. split; [done|].
  intros c Hc. rewrite Forall_forall in Hp.
  destruct (parseable_convert c (Hp c Hc)) as [e He].
  exists e. split; [done|].
  specialize (Hall c e Hc He). rewrite Hf in Hall.
  apply elem_of_union in Hall as [Hin|Hin]; [left|by right].
  apply elem_of_list_to_set, list_elem_of_fmap in Hin as (e0 & Heq & Hin).
  by exists e0.
Qed.

(** C4. Fingerprint truncation. Two candidates with the same calendar
    date whose titles, lower-cased and stripped, agree on their first 100
    characters have one fingerprint: after the first, the second is a
    duplicate, in the same batch or in a later call. *)
Theorem fingerprint_truncation self c1 c2 e1 e2 :
  convert c1 = Some e1 -> convert c2 = Some e2 ->
  date_of <$> date e1 = date_of <$> date e2 ->
  slice_to 100 (strip (lower (title e1))) = slice_to 100 (strip (lower (title e2))) ->
  _fingerprint e1 = _fingerprint e2
  /\ ingest_llm_events self [c1; c2] = ingest_llm_events self [c1]
  /\ forall self1 new1,
       ingest_llm_events self [c1] = Some (self1, new1) ->
       ingest_llm_events self1 [c2] = Some (self1, []).
Proof.
  intros H1 H2 Hdate Htitle.
  assert (_fingerprint e1 = _fingerprint e2) as Hfp.
  { unfold TU._fingerprint. by rewrite Hdate, Htitle. }
  split; [done|].
  assert (forall new, _fingerprint e1 ∈ TU._fingerprints (ingest_one (self, new) c1).1)
    as Hknown.
  { intros new.
    destruct (decide (_fingerprint e1 ∈ TU._fingerprints self)) as [Hin|Hin].
    - by rewrite (ingest_one_dup (self, new) c1 e1).
    - rewrite (ingest_one_new self new c1 e1) by done. cbn. set_solver. }
  split.
  - unfold TU.ingest_llm_events. cbn [foldl].
    rewrite (ingest_one_dup _ c2 e2 H2); [done|]. rewrite <- Hfp. apply Hknown.
  - intros self1 new1. unfold TU.ingest_llm_events at 1. cbn [foldl].
    specialize (Hknown []).
    destruct (ingest_one (self, []) c1) as [s n]. cbn [fst] in Hknown.
    destruct (TU.sort_by_date (TU.events s)) as [sorted|] eqn:Hsort; [|done].
    intros [= <- <-]. unfold TU.ingest_llm_events. cbn [foldl].
    rewrite (ingest_one_dup _ c2 e2 H2) by (cbn; by rewrite <- Hfp).
    cbn [TU.with_events TU.events TU._fingerprints TU.memory].
    apply sort_by_date_spec in Hsort as [Hsorted _].
    by rewrite (sort_by_date_fixed _ Hsorted).
Qed.

(** ** Range queries *)

Lemma filter_by_date_dated p l :
  TU.all_dated l ->
  TU.filter_by_date p l =
    Some (List.filter
            (fun e => match date e with Some d => p d | None => false end) l).
Proof.
  induction 1 as [|e l He Hl IH]; simpl; [done|].
  rewrite IH. unfold TU.has_date in He. destruct (date e) as [d|]; [|done].
  simpl. by destruct (p d).
Qed.

Lemma filter_twice {A} (f g : A -> bool) l :
  List.filter g (List.filter f l) = List.filter (fun x => f x && g x) l.
Proof.
  induction l as [|x l IH]; simpl; [done|].
  destruct (f x); simpl; [|done]. destruct (g x); by rewrite IH.
Qed.

Lemma StronglySorted_list_filter {A} (R : A -> A -> Prop) (f : A -> bool) l :
  StronglySorted R l -> StronglySorted R (List.filter f l).
Proof.
  induction 1 as [|x l Hs IH Hx]; simpl; [constructor|].
  destruct (f x); [|done]. constructor; [done|].
  rewrite Forall_forall in Hx |- *. intros y Hy.
  apply list_elem_of_In, filter_In in Hy as [Hy _]. by apply Hx, list_elem_of_In.
Qed.

Lemma all_dated_filter (f : LegalEvent -> bool) l :
  TU.all_dated l -> TU.all_dated (List.filter f l).
Proof.
  unfold TU.all_dated. rewrite !Forall_forall. intros H x Hx.
  apply list_elem_of_In, filter_In in Hx as [Hx _]. by apply H, list_elem_of_In.
Qed.

(** C6. Range query. On an engine of dated events and for every pair of
    optional bounds, [get_events_range] returns the events of
    [get_events] whose date [d] satisfies [start <= d <= end], both
    bounds inclusive and an omitted bound unbounded; the result holds
    exactly those events of the engine, in date order. *)
Theorem get_events_range_spec self start_date end_date :
  TU.all_dated (TU.events self) ->
  exists sorted l,
    TU.get_events self = Some sorted
    /\ TU.get_events_range self start_date end_date = Some l
    /\ l = List.filter (TU.in_window start_date end_date) sorted
    /\ (forall e, e ∈ l <->
          e ∈ TU.events self /\ TU.in_window start_date end_date e = true)
    /\ StronglySorted TU.date_le l.
Proof.
  intros Hd.
  pose proof (sort_by_date_dated _ Hd) as Hget.
  set (sorted := stable_sort TU.event_lt (TU.events self)) in *.
  assert (sorted ≡ₚ TU.events self) as Hperm by apply stable_sort_perm.
  assert (TU.all_dated sorted) as Hds by (unfold TU.all_dated; by rewrite Hperm).
  exists sorted, (List.filter (TU.in_window start_date end_date) sorted).
  split; [done|]. split; [|split; [done|split]].
  - unfold TU.get_events_range, TU.get_events. rewrite Hget. simpl.
    destruct start_date as [s|], end_date as [e|]; simpl.
    + rewrite (filter_by_date_dated _ _ Hds). simpl.
      rewrite filter_by_date_dated by by apply all_dated_filter.
      rewrite filter_twice. f_equal. apply List.filter_ext. intros x.
      unfold TU.in_window, TU.within. destruct (date x); [|done].
      by rewrite dt_ge_le.
    + rewrite (filter_by_date_dated _ _ Hds). simpl. f_equal.
      apply List.filter_ext. intros x.
      unfold TU.in_window, TU.within. destruct (date x); [|done].
      by rewrite dt_ge_le, andb_true_r.
    + by rewrite (filter_by_date_dated _ _ Hds).
    + f_equal. symmetry. clear -Hds.
      induction Hds as [|x l Hx Hl IH]; simpl; [done|].
      unfold TU.in_window at 1. unfold TU.has_date in Hx.
      destruct (date x); [|done]. simpl. by rewrite IH.
  - intros e. rewrite list_elem_of_In, filter_In, <- list_elem_of_In.
    by rewrite Hperm.
  - apply StronglySorted_list_filter. by apply (get_events_in_order self).
Qed.

(** A bound equal to the date of an event keeps that event. *)
Lemma in_window_boundary e d :
  date e = Some d ->
  TU.in_window (Some d) (Some d) e = true
  /\ TU.in_window (Some d) None e = true
  /\ TU.in_window None (Some d) e = true.
Proof.
  intros H. unfold TU.in_window, TU.within. rewrite H, dt_le_refl. done.
Qed.

(** ** The store *)

Lemma dict_mem_set k v d : TimelineMemory.dict_mem k (TimelineMemory.dict_set k v d) = true.
Proof.
  induction d as [|[k' v'] d IH]; simpl.
  - by rewrite bool_decide_eq_true_2.
  - case_bool_decide as Hk; simpl.
    + by rewrite bool_decide_eq_true_2.
    + by rewrite bool_decide_eq_false_2.
Qed.

(** [upsert_event] stores an event once: a second upsert of the event
    changes neither the mapping nor the file. *)
Lemma upsert_event_idempotent m e : upsert (upsert m e) e = upsert m e.
Proof.
  unfold TimelineMemory.upsert_event at 2.
  destruct (TimelineMemory.dict_mem _ (TimelineMemory.events_db m)) eqn:Hm.
  - unfold TimelineMemory.upsert_event. by rewrite Hm.
  - unfold TimelineMemory.upsert_event at 1.
    cbn [TimelineMemory._save_to_file TimelineMemory.events_db].
    rewrite dict_mem_set. unfold TimelineMemory.upsert_event. by rewrite Hm.
Qed.

(** ** Clearing the engine *)

(** C7. [clear] empties the list of events and the set of fingerprints,
    so [get_events] returns the empty sequence and any candidate that
    converts, seen before or not, is accepted again; the store object,
    with its mapping and the content of its file, is the one of before. *)
Theorem clear_frame self :
  TU.events (TU.clear self) = []
  /\ TU._fingerprints (TU.clear self) = ∅
  /\ TU.get_events (TU.clear self) = Some []
  /\ TU.memory (TU.clear self) = TU.memory self
  /\ forall c e, convert c = Some e ->
       exists self', ingest_llm_events (TU.clear self) [c] = Some (self', [e])
                     /\ TU.events self' = [e].
Proof.
  repeat split; try done.
  intros c e He. eexists. unfold TU.ingest_llm_events. cbn [foldl].
  rewrite (ingest_one_new _ [] c e He) by (cbn; set_solver).
  cbn. done.
Qed.

(** ** Titles *)

(** C9, as the engine behaves. No check is made on titles. An accepted
    event carries the title of its candidate, the empty title when the
    field is missing; a candidate whose title is missing or blank, and
    whose date converts, is accepted if its fingerprint is new and
    deduplicated otherwise, and the rest of the batch is processed in
    both cases. *)
Theorem title_not_required self c post e :
  strip (TU.title_of c) = [] ->
  convert c = Some e ->
  TU.with_date c = true ->
  TU.all_dated (TU.events self) ->
  Forall (fun c' => TU.with_date c' = true) post ->
  title e = TU.title_of c
  /\ exists self' new,
       ingest_llm_events self (c :: post) = Some (self', new)
       /\ (_fingerprint e ∉ TU._fingerprints self -> exists rest, new = e :: rest)
       /\ (_fingerprint e ∈ TU._fingerprints self ->
             ingest_llm_events self post = Some (self', new))
       /\ forall c' e', c' ∈ post -> convert c' = Some e' ->
            _fingerprint e' ∈ TU._fingerprints self'.
Proof.
  intros _ He Hc Hd Hpost. split.
  { revert He. destruct c as [d t ty ds|[[s|d]|] t ty ds|]; simpl;
      [|destruct (fromisoformat s)| | |]; try done; by intros [= <-]. }
  assert (Forall (fun c' => TU.with_date c' = true) (c :: post)) as Hb
    by by constructor.
  destruct (ingest_llm_events_spec self _ Hd Hb)
    as (self' & new & Hrun & _ & _ & _ & _ & Hall).
  exists self', new. split; [done|]. repeat split.
  - intros Hnew. revert Hrun. unfold TU.ingest_llm_events. cbn [foldl].
    rewrite (ingest_one_new self [] _ e He Hnew).
    destruct (foldl _ _ post) as [s1 n1] eqn:Hloop.
    apply ingest_loop_spec in Hloop as (added & _ & -> & _).
    destruct (TU.sort_by_date (TU.events s1)); [|done].
    intros [= _ <-]. by exists added.
  - intros Hin. rewrite <- Hrun. unfold TU.ingest_llm_events. cbn [foldl].
    by rewrite (ingest_one_dup (self, []) _ e He Hin).
  - intros c' e' Hc'. apply Hall. by right.
Qed.

(** ** Reloading from the store *)

Lemma load_one_score self payload :
  Forall (fun e => score e = 0%float) (TU.events self) ->
  Forall (fun e => score e = 0%float)
         (TU.events (TU.load_one lower fromisoformat self payload)).
Proof.
  intros H. unfold TU.load_one.
  destruct (TimelineMemory.p_date payload) as [[|ch date_str]|]; try done.
  destruct (fromisoformat (ch :: date_str)); [|done].
  case_bool_decide; [done|]. cbn. apply Forall_app. split; [done|].
  by constructor.
Qed.

(** One iteration of the load on a payload whose date parses. *)
Lemma load_one_parseable self (date_str : str) (ttl src ty descr : option str)
    (sc : option float) (ts : option str) (d : datetime) :
  date_str <> [] -> fromisoformat date_str = Some d ->
  TU.load_one lower fromisoformat self
    (TimelineMemory.Payload (Some date_str) ttl src ty descr sc ts)
  = let e := mkLegalEvent (Some d) (default [] ttl) (default (u "unknown") src)
               (default (u "modification") ty) (default [] descr) 0 in
    if bool_decide (_fingerprint e ∈ TU._fingerprints self) then self
    else TU.with_events self (TU.events self ++ [e])
           ({[_fingerprint e]} ∪ TU._fingerprints self) (TU.memory self).
Proof.
  intros Hne Hd. unfold TU.load_one. cbn [TimelineMemory.p_date].
  destruct date_str as [|ch date_str]; [done|]. by rewrite Hd.
Qed.

(** Every known fingerprint is the fingerprint of an event. *)
Local Abbreviation tracked self :=
  (forall fp, fp ∈ TU._fingerprints self ->
     exists e, e ∈ TU.events self /\ _fingerprint e = fp).

Lemma load_one_grows self payload :
  TU._fingerprints self ⊆ TU._fingerprints (TU.load_one lower fromisoformat self payload)
  /\ (tracked self -> tracked (TU.load_one lower fromisoformat self payload)).
Proof.
  clear sha256_hexdigest utcnow. unfold TU.load_one.
  destruct (TimelineMemory.p_date payload) as [[|ch date_str]|]; try done.
  destruct (fromisoformat (ch :: date_str)); [|done].
  case_bool_decide as Hin; [done|]. cbn. split; [apply union_subseteq_r|].
  intros Ht fp Hfp. apply elem_of_union in Hfp as [Hfp|Hfp].
  - apply elem_of_singleton in Hfp as ->. eexists. split; [|reflexivity].
    apply elem_of_app. right. by left.
  - destruct (Ht fp Hfp) as (e & He & Hfe). exists e. split; [|done].
    apply elem_of_app. by left.
Qed.

Lemma load_fold_grows payloads : forall self,
  TU._fingerprints self
    ⊆ TU._fingerprints (foldl (TU.load_one lower fromisoformat) self payloads)
  /\ (tracked self ->
      tracked (foldl (TU.load_one lower fromisoformat) self payloads)).
Proof.
  clear sha256_hexdigest utcnow.
  induction payloads as [|p ps IH]; intros self; cbn [foldl]; [done|].
  destruct (load_one_grows self p) as [Hsub Ht].
  destruct (IH (TU.load_one lower fromisoformat self p)) as [Hsub' Ht'].
  split; [set_solver|auto].
Qed.

Lemma load_fold_scores payloads : forall self,
  Forall (fun e => score e = 0%float) (TU.events self) ->
  Forall (fun e => score e = 0%float)
         (TU.events (foldl (TU.load_one lower fromisoformat) self payloads)).
Proof.
  induction payloads as [|p ps IH]; intros self Hs; cbn [foldl]; [done|].
  by apply IH, load_one_score.
Qed.

(** The construction with a store is the loop of the load, run on the
    payloads of the file from an engine without events. *)
Lemma init_unfold conversation_id f :
  TU.__init__ lower fromisoformat true conversation_id f
  = foldl (TU.load_one lower fromisoformat)
      (TU.mk [] ∅ true conversation_id
         (Some (TimelineMemory.__init__ conversation_id None f)))
      (List.map snd (TimelineMemory._load_from_file f)).
Proof. reflexivity. Qed.

Lemma init_scores_zero enable_memory conversation_id f :
  Forall (fun e => score e = 0%float)
         (TU.events (TU.__init__ lower fromisoformat enable_memory conversation_id f)).
Proof.
  destruct enable_memory; [|constructor].
  rewrite init_unfold. apply load_fold_scores. constructor.
Qed.

(** C10. A payload of the store whose date parses is rebuilt as an
    event with score 0.0, whatever score the payload holds: the loop of
    the load appends that event when its fingerprint is new; an engine
    built on a store that holds the payload has an event with that
    fingerprint, and the event itself when the payload is alone; every
    event of a new engine has score 0.0, although [_event_to_dict]
    writes the score of an event into its payload. *)
Theorem reloaded_score_zero (date_str : str) (ttl src ty descr : option str)
    (sc : option float) (ts : option str) (d : datetime) :
  date_str <> [] -> fromisoformat date_str = Some d ->
  (forall self,
     _fingerprint (mkLegalEvent (Some d) (default [] ttl) (default (u "unknown") src)
                     (default (u "modification") ty) (default [] descr) 0)
       ∉ TU._fingerprints self ->
     TU.load_one lower fromisoformat self
       (TimelineMemory.Payload (Some date_str) ttl src ty descr sc ts)
     = TU.with_events self
         (TU.events self ++
          [mkLegalEvent (Some d) (default [] ttl) (default (u "unknown") src)
             (default (u "modification") ty) (default [] descr) 0])
         ({[_fingerprint
              (mkLegalEvent (Some d) (default [] ttl) (default (u "unknown") src)
                 (default (u "modification") ty) (default [] descr) 0)]}
            ∪ TU._fingerprints self)
         (TU.memory self))
  /\ (forall conversation_id k,
        TU.events
          (TU.__init__ lower fromisoformat true conversation_id
             (TimelineMemory.Json
                [(k, TimelineMemory.Payload (Some date_str) ttl src ty descr sc ts)]))
        = [mkLegalEvent (Some d) (default [] ttl) (default (u "unknown") src)
             (default (u "modification") ty) (default [] descr) 0])
  /\ (forall conversation_id f k,
        (k, TimelineMemory.Payload (Some date_str) ttl src ty descr sc ts)
          ∈ TimelineMemory._load_from_file f ->
        exists e,
          e ∈ TU.events (TU.__init__ lower fromisoformat true conversation_id f)
          /\ _fingerprint e
             = _fingerprint
                 (mkLegalEvent (Some d) (default [] ttl) (default (u "unknown") src)
                    (default (u "modification") ty) (default [] descr) 0)
          /\ score e = 0%float)
  /\ (forall enable_memory conversation_id f,
        Forall (fun e => score e = 0%float)
          (TU.events
             (TU.__init__ lower fromisoformat enable_memory conversation_id f)))
  /\ (forall now e,
        TimelineMemory.p_score (TimelineMemory._event_to_dict now e)
        = Some (score e)).
Proof.
  clear sha256_hexdigest utcnow. intros Hne Hd.
  pose proof (fun self => load_one_parseable self date_str ttl src ty descr sc ts d Hne Hd)
    as Hload. cbv zeta in Hload.
  split; [|split; [|split; [|split]]].
  - intros self Hnew. rewrite Hload. by rewrite bool_decide_eq_false_2.
  - intros cid k. rewrite init_unfold.
    cbn [TimelineMemory._load_from_file List.map snd foldl].
    rewrite Hload. cbn [TU._fingerprints].
    rewrite bool_decide_eq_false_2 by set_solver. reflexivity.
  - intros cid f k Hin.
    assert (TimelineMemory.Payload (Some date_str) ttl src ty descr sc ts
              ∈ List.map snd (TimelineMemory._load_from_file f)) as Hp.
    { apply list_elem_of_In, in_map_iff. eexists. split; [|by apply list_elem_of_In].
      reflexivity. }
    pose proof (init_scores_zero true cid f) as Hzero.
    rewrite init_unfold in Hzero |- *.
    apply list_elem_of_split in Hp as (l1 & l2 & Hsplit).
    rewrite Hsplit in Hzero |- *. clear Hsplit.
    rewrite foldl_app in Hzero |- *. cbn [foldl] in Hzero |- *.
    match goal with |- context [foldl _ ?s0 l1] => set (s1 := foldl _ s0 l1) in * end.
    assert (tracked s1) as Ht1.
    { apply load_fold_grows. intros fp Hfp. cbn in Hfp. set_solver. }
    destruct (load_one_grows s1
                (TimelineMemory.Payload (Some date_str) ttl src ty descr sc ts))
      as [_ Ht2]. specialize (Ht2 Ht1).
    destruct (load_fold_grows l2
                (TU.load_one lower fromisoformat s1
                   (TimelineMemory.Payload (Some date_str) ttl src ty descr sc ts)))
      as [Hsub Ht3]. specialize (Ht3 Ht2).
    match type of Hsub with _ ⊆ TU._fingerprints ?s => set (s3 := s) in * end.
    assert (_fingerprint
              (mkLegalEvent (Some d) (default [] ttl) (default (u "unknown") src)
                 (default (u "modification") ty) (default [] descr) 0)
              ∈ TU._fingerprints s3) as Hknown.
    { apply Hsub. rewrite Hload. case_bool_decide; [done|]. cbn. set_solver. }
    destruct (Ht3 _ Hknown) as (e & He & Hfe). exists e. split; [done|].
    split; [done|]. rewrite Forall_forall in Hzero. by apply Hzero.
  - apply init_scores_zero.
  - done.
Qed.

(** The payload that [_event_to_dict] writes for a dated event is
    rebuilt as that event with score 0.0. *)
Lemma written_payload_reloads self e d now :
  date e = Some d -> fromisoformat (isoformat d) = Some d ->
  _fingerprint (mkLegalEvent (Some d) (title e) (source e) (event_type e)
                  (description e) 0) ∉ TU._fingerprints self ->
  TU.load_one lower fromisoformat self (TimelineMemory._event_to_dict now e)
  = TU.with_events self
      (TU.events self ++
       [mkLegalEvent (Some d) (title e) (source e) (event_type e) (description e) 0])
      ({[_fingerprint (mkLegalEvent (Some d) (title e) (source e) (event_type e)
                         (description e) 0)]} ∪ TU._fingerprints self)
      (TU.memory self).
Proof.
  intros He Hd Hnew. unfold TimelineMemory._event_to_dict, TimelineMemory.date_str.
  rewrite He.
  rewrite (load_one_parseable self (isoformat d) _ _ _ _ _ _ d
             (isoformat_nonempty d) Hd).
  cbv zeta. cbn [default]. by rewrite bool_decide_eq_false_2.
Qed.

(** Every engine that [__init__] builds holds dated events only. *)
Lemma init_all_dated enable_memory conversation_id f :
  TU.all_dated
    (TU.events (TU.__init__ lower fromisoformat enable_memory conversation_id f)).
Proof.
  unfold TU.__init__. destruct enable_memory; [|constructor].
  unfold TU._load_from_memory. cbn [TU.memory].
  generalize (TimelineMemory.load_all_events
                (TimelineMemory.__init__ conversation_id None f)).
  intros payloads.
  assert (forall self, TU.all_dated (TU.events self) ->
            TU.all_dated
              (TU.events (foldl (TU.load_one lower fromisoformat) self payloads)))
    as Hfold.
  { induction payloads as [|p ps IH]; intros self Hs; cbn [foldl]; [done|].
    apply IH. unfold TU.load_one.
    destruct (TimelineMemory.p_date p) as [[|ch date_str]|]; try done.
    destruct (fromisoformat (ch :: date_str)); [|done].
    case_bool_decide; [done|]. cbn. apply Forall_app. split; [done|].
    by constructor. }
  apply Hfold. constructor.
Qed.

End UltraFacts.

Lemma ingest_idempotent_witness :
  exists e self1,
    TU.convert Runtime.lower Runtime.fromisoformat
      (TU.Dict (Some (TU.DateStr (u "2016-08-08")))
               (Some (u "Loi n° 2016-1088 relative au travail")) None None)
    = Some e
    /\ TU.ingest_llm_events Runtime.lower Runtime.fromisoformat Runtime.hexdigest
      Runtime.utcnow (TU.__init__ Runtime.lower Runtime.fromisoformat true None
                        TimelineMemory.Absent)
      [TU.Dict (Some (TU.DateStr (u "2016-08-08")))
               (Some (u "Loi n° 2016-1088 relative au travail")) None None]
    = Some (self1, [e])
    /\ TU.ingest_llm_events Runtime.lower Runtime.fromisoformat Runtime.hexdigest
         Runtime.utcnow self1
         [TU.Dict (Some (TU.DateStr (u "2016-08-08")))
                  (Some (u "Loi n° 2016-1088 relative au travail")) None None]
       = Some (self1, [])
    /\ TU.get_events self1 = Some [e]
    /\ length (TU.events self1) = 1%nat.
Proof.
  apply (ingest_idempotent Runtime.lower Runtime.fromisoformat Runtime.hexdigest
           Runtime.utcnow).
  - reflexivity.
  - reflexivity.
  - vm_compute. eauto.
  - exact I.
Defined.

Lemma get_events_sorted_witness :
  exists self' l,
    TU.ingest_all Runtime.lower Runtime.fromisoformat Runtime.hexdigest
      Runtime.utcnow fresh_engine sample_batches = Some self'
    /\ TU.get_events self' = Some l
    /\ StronglySorted TU.date_le l
    /\ l ≡ₚ TU.events self'.
Proof.
  apply (get_events_sorted Runtime.lower Runtime.fromisoformat Runtime.hexdigest
           Runtime.utcnow fresh_engine sample_batches).
  - constructor.
  - repeat constructor.
Defined.

Example get_events_run :
  (TU.get_events <$>
     TU.ingest_all Runtime.lower Runtime.fromisoformat Runtime.hexdigest
       Runtime.utcnow fresh_engine sample_batches)
  = Some (Some
      [ mkLegalEvent (Some (Datetime 2017 5 1 0 0 0 0)) (u "Loi A") (u "llm")
          (u "modification") [] 0;
        mkLegalEvent (Some (Datetime 2018 6 15 0 0 0 0)) (u "Décret C") (u "llm")
          (u "decret") [] 0.2;
        mkLegalEvent (Some (Datetime 2019 11 1 0 0 0 0)) (u "Loi B") (u "llm")
          (u "modification") [] 0 ]).
Proof. vm_compute. reflexivity. Qed.

(** C2 on a batch with a dict that has no ["date"] key. The call raises
    at its final sort, and [get_events] raises on the engine as the loop
    left it, where the order invariant asks for a sorted sequence; alone,
    the dict is accepted with the date [None], and the next call raises.
    The load of the store, for its part, skips a payload without date. *)
Theorem dateless_candidate_breaks_order :
  TU.ingest_llm_events Runtime.lower Runtime.fromisoformat Runtime.hexdigest
    Runtime.utcnow fresh_engine [dateless; dict_candidate "2020-01-01" "Loi B"]
  = None
  /\ TU.get_events
       (foldl (TU.ingest_one Runtime.lower Runtime.fromisoformat Runtime.hexdigest
                 Runtime.utcnow)
          (fresh_engine, []) [dateless; dict_candidate "2020-01-01" "Loi B"]).1
     = None
  /\ (snd <$> TU.ingest_llm_events Runtime.lower Runtime.fromisoformat
                Runtime.hexdigest Runtime.utcnow fresh_engine [dateless])
     = Some [mkLegalEvent None (u "Loi A") (u "llm") (u "modification") [] 0]
  /\ (TU.ingest_llm_events Runtime.lower Runtime.fromisoformat Runtime.hexdigest
        Runtime.utcnow fresh_engine [dateless]
      ≫= fun r =>
        TU.ingest_llm_events Runtime.lower Runtime.fromisoformat Runtime.hexdigest
          Runtime.utcnow r.1 [dict_candidate "2020-01-01" "Loi B"])
     = None
  /\ TU.load_one Runtime.lower Runtime.fromisoformat fresh_engine
       (TimelineMemory.Payload None (Some (u "Loi A")) None None None None None)
     = fresh_engine.
Proof. vm_compute. auto. Qed.

Lemma ingest_skips_bad_date_witness :
  exists self' new,
    TU.ingest_llm_events Runtime.lower Runtime.fromisoformat Runtime.hexdigest
      Runtime.utcnow fresh_engine
      ([dict_candidate "2019-11-01" "Loi B"] ++
       TU.Dict (Some (TU.DateStr (u "le mois dernier"))) (Some (u "Loi X")) None None
       :: [dict_candidate "2017-05-01" "Loi A"])
      = Some (self', new)
    /\ TU.ingest_llm_events Runtime.lower Runtime.fromisoformat Runtime.hexdigest
         Runtime.utcnow fresh_engine
         ([dict_candidate "2019-11-01" "Loi B"] ++ [dict_candidate "2017-05-01" "Loi A"])
       = Some (self', new)
    /\ forall c,
         c ∈ [dict_candidate "2019-11-01" "Loi B"] ++ [dict_candidate "2017-05-01" "Loi A"] ->
         exists e, TU.convert Runtime.lower Runtime.fromisoformat c = Some e
           /\ ((exists e0, e0 ∈ new /\ TU._fingerprint Runtime.lower e0
                                      = TU._fingerprint Runtime.lower e)
               \/ TU._fingerprint Runtime.lower e ∈ TU._fingerprints fresh_engine).
Proof.
  apply (ingest_skips_bad_date Runtime.lower Runtime.fromisoformat Runtime.hexdigest
           Runtime.utcnow fresh_engine).
  - reflexivity.
  - constructor.
  - repeat constructor; vm_compute; eauto.
Defined.

Lemma fingerprint_truncation_witness :
  TU._fingerprint Runtime.lower
    (mkLegalEvent (Some (Datetime 2016 8 8 0 0 0 0)) (long_title "x") (u "llm")
       (u "modification") [] 0)
  = TU._fingerprint Runtime.lower
      (mkLegalEvent (Some (Datetime 2016 8 8 0 0 0 0)) (long_title "y") (u "llm")
         (u "modification") [] 0)
  /\ TU.ingest_llm_events Runtime.lower Runtime.fromisoformat Runtime.hexdigest
       Runtime.utcnow fresh_engine
       [TU.Dict (Some (TU.DateStr (u "2016-08-08"))) (Some (long_title "x")) None None;
        TU.Dict (Some (TU.DateStr (u "2016-08-08"))) (Some (long_title "y")) None None]
     = TU.ingest_llm_events Runtime.lower Runtime.fromisoformat Runtime.hexdigest
         Runtime.utcnow fresh_engine
         [TU.Dict (Some (TU.DateStr (u "2016-08-08"))) (Some (long_title "x")) None None]
  /\ forall self1 new1,
       TU.ingest_llm_events Runtime.lower Runtime.fromisoformat Runtime.hexdigest
         Runtime.utcnow fresh_engine
         [TU.Dict (Some (TU.DateStr (u "2016-08-08"))) (Some (long_title "x")) None None]
       = Some (self1, new1) ->
       TU.ingest_llm_events Runtime.lower Runtime.fromisoformat Runtime.hexdigest
         Runtime.utcnow self1
         [TU.Dict (Some (TU.DateStr (u "2016-08-08"))) (Some (long_title "y")) None None]
       = Some (self1, []).
Proof.
  apply (fingerprint_truncation Runtime.lower Runtime.fromisoformat Runtime.hexdigest
           Runtime.utcnow fresh_engine).
  - vm_compute. reflexivity.
  - vm_compute. reflexivity.
  - reflexivity.
  - vm_compute. reflexivity.
Defined.

Lemma get_events_range_witness :
  exists sorted l,
    TU.get_events scenario_d = Some sorted
    /\ TU.get_events_range scenario_d (Some (Datetime 2018 1 1 0 0 0 0))
         (Some (Datetime 2019 12 31 0 0 0 0)) = Some l
    /\ l = List.filter (TU.in_window (Some (Datetime 2018 1 1 0 0 0 0))
                          (Some (Datetime 2019 12 31 0 0 0 0))) sorted
    /\ (forall e, e ∈ l <->
          e ∈ TU.events scenario_d
          /\ TU.in_window (Some (Datetime 2018 1 1 0 0 0 0))
               (Some (Datetime 2019 12 31 0 0 0 0)) e = true)
    /\ StronglySorted TU.date_le l.
Proof.
  apply (get_events_range_spec scenario_d).
  repeat constructor.
Defined.

(** Scenario D, and bounds that coincide with dates of events. *)
Example get_events_range_run :
  (List.map date <$>
     TU.get_events_range scenario_d (Some (Datetime 2018 1 1 0 0 0 0))
       (Some (Datetime 2019 12 31 0 0 0 0)))
    = Some [Some (Datetime 2018 6 15 0 0 0 0); Some (Datetime 2019 11 1 0 0 0 0)]
  /\ (List.map date <$>
        TU.get_events_range scenario_d (Some (Datetime 2018 6 15 0 0 0 0))
          (Some (Datetime 2019 11 1 0 0 0 0)))
    = Some [Some (Datetime 2018 6 15 0 0 0 0); Some (Datetime 2019 11 1 0 0 0 0)]
  /\ (List.map date <$> TU.get_events_range scenario_d None
                          (Some (Datetime 2017 5 1 0 0 0 0)))
    = Some [Some (Datetime 2017 5 1 0 0 0 0)].
Proof. vm_compute. auto. Qed.

(** C9 as stated fails: a descriptor without title and one with a blank
    title are both accepted, with titles that are empty after trimming. *)
Lemma missing_title_accepted :
  (snd <$> TU.ingest_llm_events Runtime.lower Runtime.fromisoformat
             Runtime.hexdigest Runtime.utcnow fresh_engine [untitled; blank_titled])
    = Some [ untitled_event;
             mkLegalEvent (Some (Datetime 2021 1 1 0 0 0 0)) (u "   ") (u "llm")
               (u "modification") [] 0 ]
  /\ strip (title untitled_event) = []
  /\ strip (u "   ") = [].
Proof. vm_compute. auto. Qed.

Lemma title_not_required_witness :
  title untitled_event = TU.title_of untitled
  /\ exists self' new,
       TU.ingest_llm_events Runtime.lower Runtime.fromisoformat Runtime.hexdigest
         Runtime.utcnow fresh_engine (untitled :: [dict_candidate "2017-05-01" "Loi A"])
         = Some (self', new)
       /\ (TU._fingerprint Runtime.lower untitled_event ∉ TU._fingerprints fresh_engine ->
             exists rest, new = untitled_event :: rest)
       /\ (TU._fingerprint Runtime.lower untitled_event ∈ TU._fingerprints fresh_engine ->
             TU.ingest_llm_events Runtime.lower Runtime.fromisoformat Runtime.hexdigest
               Runtime.utcnow fresh_engine [dict_candidate "2017-05-01" "Loi A"]
             = Some (self', new))
       /\ forall c' e', c' ∈ [dict_candidate "2017-05-01" "Loi A"] ->
            TU.convert Runtime.lower Runtime.fromisoformat c' = Some e' ->
            TU._fingerprint Runtime.lower e' ∈ TU._fingerprints self'.
Proof.
  apply (title_not_required Runtime.lower Runtime.fromisoformat Runtime.hexdigest
           Runtime.utcnow fresh_engine untitled
           [dict_candidate "2017-05-01" "Loi A"] untitled_event).
  - reflexivity.
  - vm_compute. reflexivity.
  - reflexivity.
  - constructor.
  - repeat constructor.
Defined.

Lemma clear_frame_witness :
  TU.events (TU.clear scenario_d) = []
  /\ TU._fingerprints (TU.clear scenario_d) = ∅
  /\ TU.get_events (TU.clear scenario_d) = Some []
  /\ TU.memory (TU.clear scenario_d) = TU.memory scenario_d
  /\ forall c e, TU.convert Runtime.lower Runtime.fromisoformat c = Some e ->
       exists self',
         TU.ingest_llm_events Runtime.lower Runtime.fromisoformat Runtime.hexdigest
           Runtime.utcnow (TU.clear scenario_d) [c] = Some (self', [e])
         /\ TU.events self' = [e].
Proof.
  apply (clear_frame Runtime.lower Runtime.fromisoformat Runtime.hexdigest
           Runtime.utcnow scenario_d).
Defined.

(** A candidate is ingested, the engine cleared, the candidate ingested
    again: it is accepted both times, and the file of the store is the
    same after the three calls as after the first. *)
Example clear_then_reingest :
  let c := dict_candidate "2016-08-08" "Loi travail" in
  let ingest := TU.ingest_llm_events Runtime.lower Runtime.fromisoformat
                  Runtime.hexdigest Runtime.utcnow in
  match ingest fresh_engine [c] with
  | Some (self1, new1) =>
      match ingest (TU.clear self1) [c] with
      | Some (self2, new2) =>
          new1 = new2 /\ length new2 = 1%nat
          /\ TU.memory self2 = TU.memory self1
          /\ (TimelineMemory.file_content <$> TU.memory self1)
             = (TimelineMemory.Json <$> (TimelineMemory.events_db <$> TU.memory self1))
      | None => False
      end
  | None => False
  end.
Proof. vm_compute. auto. Qed.

Lemma reloaded_score_zero_witness :
  (forall self,
     TU._fingerprint Runtime.lower
       (mkLegalEvent (Some (Datetime 2016 8 8 0 0 0 0)) (default [] (Some (u "Loi travail")))
          (default (u "unknown") (Some (u "llm")))
          (default (u "modification") (Some (u "loi"))) (default [] (Some [])) 0)
       ∉ TU._fingerprints self ->
     TU.load_one Runtime.lower Runtime.fromisoformat self
       (TimelineMemory.Payload (Some (u "2016-08-08T00:00:00")) (Some (u "Loi travail"))
          (Some (u "llm")) (Some (u "loi")) (Some []) (Some 0.6%float)
          (Some (u "2026-01-31T12:00:00")))
     = TU.with_events self
         (TU.events self ++
          [mkLegalEvent (Some (Datetime 2016 8 8 0 0 0 0))
             (default [] (Some (u "Loi travail")))
             (default (u "unknown") (Some (u "llm")))
             (default (u "modification") (Some (u "loi"))) (default [] (Some [])) 0])
         ({[TU._fingerprint Runtime.lower
              (mkLegalEvent (Some (Datetime 2016 8 8 0 0 0 0))
                 (default [] (Some (u "Loi travail")))
                 (default (u "unknown") (Some (u "llm")))
                 (default (u "modification") (Some (u "loi"))) (default [] (Some [])) 0)]}
            ∪ TU._fingerprints self)
         (TU.memory self))
  /\ (forall conversation_id k,
        TU.events
          (TU.__init__ Runtime.lower Runtime.fromisoformat true conversation_id
             (TimelineMemory.Json
                [(k, TimelineMemory.Payload (Some (u "2016-08-08T00:00:00"))
                       (Some (u "Loi travail")) (Some (u "llm")) (Some (u "loi"))
                       (Some []) (Some 0.6%float) (Some (u "2026-01-31T12:00:00")))]))
        = [mkLegalEvent (Some (Datetime 2016 8 8 0 0 0 0))
             (default [] (Some (u "Loi travail")))
             (default (u "unknown") (Some (u "llm")))
             (default (u "modification") (Some (u "loi"))) (default [] (Some [])) 0])
  /\ (forall conversation_id f k,
        (k, TimelineMemory.Payload (Some (u "2016-08-08T00:00:00"))
              (Some (u "Loi travail")) (Some (u "llm")) (Some (u "loi"))
              (Some []) (Some 0.6%float) (Some (u "2026-01-31T12:00:00")))
          ∈ TimelineMemory._load_from_file f ->
        exists e,
          e ∈ TU.events (TU.__init__ Runtime.lower Runtime.fromisoformat true
                           conversation_id f)
          /\ TU._fingerprint Runtime.lower e
             = TU._fingerprint Runtime.lower
                 (mkLegalEvent (Some (Datetime 2016 8 8 0 0 0 0))
                    (default [] (Some (u "Loi travail")))
                    (default (u "unknown") (Some (u "llm")))
                    (default (u "modification") (Some (u "loi")))
                    (default [] (Some [])) 0)
          /\ score e = 0%float)
  /\ (forall enable_memory conversation_id f,
        Forall (fun e => score e = 0%float)
          (TU.events
             (TU.__init__ Runtime.lower Runtime.fromisoformat enable_memory
                conversation_id f)))
  /\ (forall now e,
        TimelineMemory.p_score (TimelineMemory._event_to_dict now e)
        = Some (score e)).
Proof.
  apply (reloaded_score_zero Runtime.lower Runtime.fromisoformat
           (u "2016-08-08T00:00:00") (Some (u "Loi travail")) (Some (u "llm"))
           (Some (u "loi")) (Some []) (Some 0.6%float)
           (Some (u "2026-01-31T12:00:00")) (Datetime 2016 8 8 0 0 0 0)).
  - vm_compute. discriminate.
  - vm_compute. reflexivity.
Defined.

(** An event is ingested with score 0.4 and written to the store with
    that score; an engine built afterwards on the file of the store
    holds the event with score 0.0. *)
Example persist_then_reload :
  match TU.ingest_llm_events Runtime.lower Runtime.fromisoformat Runtime.hexdigest
          Runtime.utcnow fresh_engine
          [TU.Dict (Some (TU.DateStr (u "2016-08-08"))) (Some (u "Loi El Khomri"))
             (Some (u "loi")) None] with
  | Some (self1, new) =>
      match TU.memory self1 with
      | Some m =>
          score <$> new = [0.4%float]
          /\ (TimelineMemory.p_score <$> TimelineMemory.load_all_events m)
             = [Some 0.4%float]
          /\ TU.events (TU.__init__ Runtime.lower Runtime.fromisoformat true None
                          (TimelineMemory.file_content m))
             = [mkLegalEvent (Some (Datetime 2016 8 8 0 0 0 0)) (u "Loi El Khomri")
                  (u "llm") (u "loi") [] 0]
      | None => False
      end
  | None => False
  end.
Proof. vm_compute. auto. Qed.

(** The load keeps the order of the store in [events]; [get_events]
    sorts on reading. *)
Example reload_order :
  let self :=
    TU.__init__ Runtime.lower Runtime.fromisoformat true None
      (TimelineMemory.Json
         [(u "k2", TimelineMemory.Payload (Some (u "2019-11-01")) (Some (u "B")) None
                     None None None None);
          (u "k1", TimelineMemory.Payload (Some (u "2017-05-01")) (Some (u "A")) None
                     None None None None)]) in
  List.map title (TU.events self) = [u "B"; u "A"]
  /\ (List.map title <$> TU.get_events self) = Some [u "A"; u "B"].
Proof. vm_compute. auto. Qed.

(** A stored payload with score 0.6 comes back with score 0.0. *)
Example reload_run :
  TU.events
    (TU.__init__ Runtime.lower Runtime.fromisoformat true None
       (TimelineMemory.Json
          [(u "k", TimelineMemory.Payload (Some (u "2016-08-08")) (Some (u "Loi travail"))
                     (Some (u "llm")) (Some (u "loi")) (Some []) (Some 0.6%float)
                     (Some (u "2026-01-31T12:00:00")))]))
  = [mkLegalEvent (Some (Datetime 2016 8 8 0 0 0 0)) (u "Loi travail") (u "llm")
       (u "loi") [] 0].
Proof. vm_compute. reflexivity. Qed.

(** ** The free-text extractor *)


Lemma u19 : u "19" = [49; 57]%N.
Proof. vm_compute. reflexivity. Qed.

Lemma u20 : u "20" = [50; 48]%N.
Proof. vm_compute. reflexivity. Qed.

(** The group of the year pattern holds the century, never the year. *)
Lemma year_match_group c mt :
  Regex.match_at TH.year_pattern c = Some mt ->
  Regex.group 1 mt = u "19" \/ Regex.group 1 mt = u "20".
Proof.
  destruct c as [p pv s]. unfold Regex.match_at, TH.year_pattern.
  rewrite !u19, !u20.
  cbn -[Regex.isword isdigit N.eqb Nat.sub].
  destruct (xorb (Regex.word_at pv) (Regex.word_at (head s))); [|done].
  destruct s as [|a [|b s]]; [done| |].
  { by destruct (49 =? a)%N, (50 =? a)%N. }
  replace (S (S p) - p)%nat with 2%nat by lia.
  destruct (N.eqb_spec 49 a) as [Ha|_], (N.eqb_spec 57 b) as [Hb|_],
           (N.eqb_spec 50 a) as [Ha'|_], (N.eqb_spec 48 b) as [Hb'|_];
    try done; try lia; subst;
    repeat (case_match; try done); simplify_eq;
    intros [= <-]; cbn; auto.
Qed.

Lemma search_from_aux_match r s : forall p pv mt,
  Regex.search_from_aux r p pv s = Some mt ->
  exists c, Regex.match_at r c = Some mt.
Proof.
  induction s as [|x s IH]; intros p pv mt; cbn [Regex.search_from_aux].
  - destruct (Regex.match_at r (Regex.Cursor p pv [])) eqn:E; [|done].
    intros [= <-]. eauto.
  - destruct (Regex.match_at r (Regex.Cursor p pv (x :: s))) eqn:E.
    + intros [= <-]. eauto.
    + apply IH.
Qed.

Lemma finditer_from_match r fuel : forall c,
  Forall (fun mt => exists c', Regex.match_at r c' = Some mt)
         (Regex.finditer_from r fuel c).
Proof.
  induction fuel as [|fuel IH]; intros c; cbn [Regex.finditer_from]; [constructor|].
  destruct (Regex.search_from r c) as [mt|] eqn:E; [|constructor].
  constructor.
  - by apply search_from_aux_match in E.
  - destruct (Regex.pos (Regex.m_start mt) <? Regex.pos (Regex.m_end mt))%nat;
      [apply IH|].
    destruct (Regex.advance (Regex.m_end mt)); [apply IH|constructor].
Qed.

Lemma findall_years text :
  Forall (fun y => y = u "19" \/ y = u "20")
         (Regex.findall_group1 TH.year_pattern text).
Proof.
  unfold Regex.findall_group1, Regex.finditer. apply Forall_fmap.
  eapply Forall_impl; [apply finditer_from_match|].
  intros mt [c Hc]. by eapply year_match_group.
Qed.

Section BareYears.

Variable lower : str -> str.
Hypothesis lower_19 : lower (u "19") = u "19".
Hypothesis lower_20 : lower (u "20") = u "20".

Lemma parse_century y :
  y = u "19" \/ y = u "20" -> TH._parse_date_french lower (Some y) = None.
Proof.
  intros [-> | ->]; unfold TH._parse_date_french.
  - replace (strip (u "19")) with (u "19") by (vm_compute; reflexivity).
    rewrite lower_19. vm_compute. reflexivity.
  - replace (strip (u "20")) with (u "20") by (vm_compute; reflexivity).
    rewrite lower_20. vm_compute. reflexivity.
Qed.

(** Whatever the text, the strategy of the bare years adds no event:
    each string it hands to the date parser is a century. *)
Lemma year_events_nil text : TH.year_events lower text = [].
Proof.
  unfold TH.year_events.
  assert (Forall (fun y => y = u "19" \/ y = u "20")
            (remove_dups (Regex.findall_group1 TH.year_pattern text))) as H.
  { rewrite Forall_forall. intros y Hy. rewrite elem_of_remove_dups in Hy.
    pose proof (findall_years text) as H. rewrite Forall_forall in H. by apply H. }
  induction H as [|y l Hy Hl IH]; [done|]. cbn [omap list_omap].
  by rewrite (parse_century y Hy).
Qed.

(** So a reply in which the four other strategies find nothing yields
    no event at all, whatever bare years it mentions. *)
Lemma bare_years_yield_nothing json_loads messages text :
  TH.last_assistant_message messages = Some text ->
  Regex.search TH.json_pattern text = None ->
  TH.md_events lower text = [] ->
  TH.html_events lower text = [] ->
  TH.full_date_events lower text = [] ->
  TH.extract_events_from_last_response lower json_loads messages = [].
Proof.
  intros Hmsg Hjson Hmd Hhtml Hfull. unfold TH.extract_events_from_last_response.
  rewrite Hmsg, Hjson, Hmd, Hhtml, Hfull, year_events_nil.
  by destruct text.
Qed.

End BareYears.

(** C8 on a reply with a bare year. The claim asks for an event dated
    2020-01-01; the extractor returns no event: [findall] yields the
    group ["20"], which is no date, although the year itself parses. *)
Theorem bare_year_not_extracted :
  TH.extract_events_from_last_response Runtime.lower no_json bare_year_reply = []
  /\ Regex.findall_group1 TH.year_pattern
       (u "La réforme de 2020 a modifié le code du travail.") = [u "20"]
  /\ TH._parse_date_french Runtime.lower (Some (u "20")) = None
  /\ TH._parse_date_french Runtime.lower (Some (u "2020"))
     = Some (Datetime 2020 1 1 0 0 0 0).
Proof. vm_compute. auto. Qed.

(** Scenario C: the strategy of the full dates does find its date. *)
Example scenario_c_run :
  TH.te_date <$> TH.extract_events_from_last_response Runtime.lower no_json
                   scenario_c_reply
  = [Datetime 2020 10 29 0 0 0 0].
Proof. vm_compute. reflexivity. Qed.

(** ** The earlier engine

    [core/timeline_engine.py] keeps the whole normalised title in its
    fingerprint and does not catch the error of an unparseable date. *)

Example core_fingerprint_not_truncated :
  match Core.ingest_llm_events Runtime.lower Runtime.fromisoformat Core.__init__
          [raw_event (u "2016-08-08") (long_title "x");
           raw_event (u "2016-08-08") (long_title "y")] with
  | Core.Returned _ new => length new
  | Core.Raised _ => 0%nat
  end = 2%nat.
Proof. vm_compute. reflexivity. Qed.

Lemma core_bad_date_raises lower fromisoformat self s ttl rest :
  fromisoformat s = None ->
  Core.ingest_llm_events lower fromisoformat self (Core.Raw (Some s) ttl :: rest)
    = Core.Raised self.
Proof.
  intros H. unfold Core.ingest_llm_events. cbn. destruct ttl; by rewrite ?H.
Qed.

(** After a call that raised, [events] holds what the loop appended,
    unsorted, and [get_events] returns it as it is. *)
Example core_unsorted_after_raise :
  match Core.ingest_llm_events Runtime.lower Runtime.fromisoformat Core.__init__
          [raw_event (u "2020-01-01") (u "Loi A")] with
  | Core.Returned self1 _ =>
      match Core.ingest_llm_events Runtime.lower Runtime.fromisoformat self1
              [raw_event (u "2019-01-01") (u "Loi B"); raw_event (u "hier") (u "Loi C")] with
      | Core.Raised self2 => Core.date <$> Core.get_events self2
      | Core.Returned _ _ => []
      end
  | Core.Raised _ => []
  end = [Datetime 2020 1 1 0 0 0 0; Datetime 2019 1 1 0 0 0 0].
Proof. vm_compute. reflexivity. Qed.
